(** * omise-go, package [operations]: the schedule requests

    A shallow embedding of [operations/schedule.go]: the two request
    encoders [CreateChargeSchedule.MarshalJSON] and
    [CreateTransferSchedule.MarshalJSON], and the operation descriptors
    returned by the [Op] methods.

    The encoders lean on three parts of Go's standard library, which are
    modelled first: [time.Parse] and [Time.Format] for the layout
    ["2006-01-02"], [strconv] for numbers, and [encoding/json] for the
    struct-tag driven encoding ([omitempty], field order, string
    escaping). *)

From Stdlib Require Import ZArith List String Ascii Bool Lia.
From Stdlib Require Import DecimalString SpecFloat.
Import ListNotations.

#[local] Set Warnings "-register-all".

Local Open Scope string_scope.
Local Open Scope Z_scope.

(** ** Go values shared by the packages *)

(** A Go [string] is a sequence of bytes; so is a [[]byte].  Both are
    [string] here (a list of 8-bit characters). *)
Definition bytes := string.

(** The two kinds of error the encoders can return: [*time.ParseError]
    (layout and offending value) and [*json.UnsupportedValueError]. *)
Inductive error : Type :=
| ParseError (layout value : string)
| UnsupportedValueError (f : spec_float).

(** A computation that stops at the first error ([if err != nil { return
    nil, err }]). *)
Definition Result (A : Type) : Type := (error + A)%type.

Declare Scope go_scope.
Delimit Scope go_scope with go.
Notation "x <- e ;; k" :=
  (match e with inl err => inl err | inr x => k end)
  (at level 61, e at next level, right associativity) : go_scope.
Local Open Scope go_scope.

(** A Go result pair [([]byte, error)]: [nil] is [None] on either side. *)
Definition returned : Type := (option bytes * option error)%type.

(** ** Package [time], for the layout ["2006-01-02"] *)
Module gotime.

(** The calendar date of a [time.Time].  Every [Time] met here comes
    from [Parse] with a date-only layout (midnight, UTC) or is the zero
    [Time], so the date is all there is to it. *)
Record Time : Type := mkTime { Year : Z; Month : Z; Day : Z }.

(** [time.Time{}]: January 1, year 1, 00:00:00 UTC. *)
Definition zero : Time := mkTime 1 1 1.

Definition layout : string := "2006-01-02".

Definition isDigit (c : ascii) : bool :=
  let n := Z.of_N (N_of_ascii c) in (48 <=? n) && (n <=? 57).

Definition digit (c : ascii) : Z := Z.of_N (N_of_ascii c) - 48.

(** [getnum(s, true)]: exactly two digits. *)
Definition getnum (s : string) : option (Z * string) :=
  match s with
  | String a (String b rest) =>
      if isDigit a && isDigit b then Some (digit a * 10 + digit b, rest)
      else None
  | _ => None
  end.

(** The [stdLongYear] case: four characters, all digits. *)
Definition getyear (s : string) : option (Z * string) :=
  match s with
  | String a (String b (String c (String d rest))) =>
      if isDigit a && isDigit b && isDigit c && isDigit d
      then Some (((digit a * 10 + digit b) * 10 + digit c) * 10 + digit d, rest)
      else None
  | _ => None
  end.

(** [skip(value, "-")]. *)
Definition skip (s : string) : option string :=
  match s with
  | String c rest => if Ascii.eqb c "-" then Some rest else None
  | EmptyString => None
  end.

Definition isLeap (year : Z) : bool :=
  (year mod 4 =? 0) && (negb (year mod 100 =? 0) || (year mod 400 =? 0)).

Definition daysIn (m year : Z) : Z :=
  if (m =? 2) && isLeap year then 29
  else nth (Z.to_nat (m - 1)) [31; 28; 31; 30; 31; 30; 31; 31; 30; 31; 30; 31] 0.

(** [parse] without the error value. *)
Definition parseDate (value : string) : option Time :=
  match getyear value with
  | None => None
  | Some (year, v1) =>
    match skip v1 with
    | None => None
    | Some v2 =>
      match getnum v2 with
      | None => None
      | Some (month, v3) =>
        if (month <=? 0) || (12 <? month) then None
        else
          match skip v3 with
          | None => None
          | Some v4 =>
            match getnum v4 with
            | None => None
            | Some (day, v5) =>
              match v5 with
              | String _ _ => None (* extra text *)
              | EmptyString =>
                  if (day <? 1) || (daysIn month year <? day) then None
                  else Some (mkTime year month day)
              end
            end
          end
      end
    end
  end.

(** [time.Parse("2006-01-02", value)]. *)
Definition Parse (value : string) : Result Time :=
  match parseDate value with
  | Some t => inr t
  | None => inl (ParseError layout value)
  end.

Definition digits (n : Z) : string := NilZero.string_of_uint (N.to_uint (Z.to_N n)).

Fixpoint zeros (n : nat) : string :=
  match n with O => "" | S k => String "0" (zeros k) end.

(** [appendInt(b, x, width)]: decimal, zero-padded to [width]. *)
Definition appendInt (x : Z) (width : nat) : string :=
  let d := digits (Z.abs x) in
  (if x <? 0 then "-" else "") ++ zeros (width - String.length d) ++ d.

(** [t.Format("2006-01-02")]. *)
Definition Format (t : Time) : string :=
  appendInt (Year t) 4 ++ "-" ++ appendInt (Month t) 2 ++ "-" ++ appendInt (Day t) 2.

End gotime.

(** ** Package [omise]: the date adapter *)
Module omise.

(** [type Date time.Time]. *)
Definition Date : Type := gotime.Time.

(** Modelled from the spec: [Date.MarshalJSON] is declared in the root
    package, outside this file; the spec has it encode "the parsed date
    as the wire date format (date-only, no time component, no
    timezone)", that is the JSON string of [Format("2006-01-02")]. *)
Definition String (d : Date) : string := gotime.Format d.

End omise.

(** ** Package [schedule]: the period names *)
Module schedule.

(** Modelled from the spec: [type Period string] with the three
    constants ["day"], ["week"] and ["month"]; [Weekday] is a string
    type too, [Weekdays] is [[]Weekday] and [DaysOfMonth] is [[]int]. *)
Definition Period : Type := string.
Definition PeriodDay : Period := "day".
Definition PeriodWeek : Period := "week".
Definition PeriodMonth : Period := "month".

Definition Weekday : Type := string.
Definition Monday : Weekday := "monday".
Definition Saturday : Weekday := "saturday".

(** A slice is [nil] ([None]) or holds elements. *)
Definition Weekdays : Type := option (list Weekday).
Definition DaysOfMonth : Type := option (list Z).

End schedule.

(** ** Package [strconv]: numbers as text *)
Module strconv.

(** [strconv.Itoa], which [encoding/json] uses for every integer kind. *)
Definition Itoa (z : Z) : string := NilZero.string_of_int (Z.to_int z).

(** *** Shortest decimal of a [float64]

    [FormatFloat(f, fmt, -1, 64)] prints the fewest decimal digits that
    read back as [f], the closest to [f] among those.  A finite
    [float64] is [m * 2^e]; the decimals that read back as it lie
    between the midpoints to its two neighbours, the midpoints
    themselves included when [m] is even (round-half-even). *)

(** The value and the two midpoints as numerators over [2^(2-e)]
    (or multiplied out when [e >= 2]). *)
Definition lowNum (m e : Z) : Z :=
  if (m <=? 2 ^ 52) && negb (e =? -1074) then 4 * m - 1 else 4 * m - 2.

Definition scaled (num e q : Z) : Z :=
  num * (2 ^ Z.max 0 (e - 2)) * (10 ^ Z.max 0 (- q)).

(** One unit in the decimal place [q], on the same scale. *)
Definition unit (e q : Z) : Z :=
  (2 ^ Z.max 0 (2 - e)) * (10 ^ Z.max 0 q).

(** The digits [c] of the shortest decimal [c * 10^q] at place [q], if
    a multiple of [10^q] lies between the midpoints. *)
Definition atPlace (m e q : Z) : option Z :=
  let u := unit e q in
  let v := scaled (4 * m) e q in
  let lo := scaled (lowNum m e) e q in
  let hi := scaled (4 * m + 2) e q in
  let inclusive := Z.even m in
  let down := v / u in
  let up := down + 1 in
  let okdown := if inclusive then lo <=? down * u else lo <? down * u in
  let okup := if inclusive then up * u <=? hi else up * u <? hi in
  match okdown, okup with
  | true, true =>
      match 2 * v ?= (2 * down + 1) * u with
      | Lt => Some down
      | Gt => Some up
      | Eq => Some (if Z.even down then down else up)
      end
  | true, false => Some down
  | false, true => Some up
  | false, false => None
  end.

(** Walk the places from the most significant one. *)
Fixpoint shortestFrom (fuel : nat) (m e q : Z) : Z * Z :=
  match fuel with
  | O => (0, 0)
  | S fuel' =>
      match atPlace m e q with
      | Some c => (c, q)
      | None => shortestFrom fuel' m e (q - 1)
      end
  end.

(** [(c, q)] with [c * 10^q] the shortest decimal of [m * 2^e].  The
    walk starts above the value and ends at the latest at the place of
    its last exact digit. *)
Definition shortest (m e : Z) : Z * Z :=
  let top := Z.max 0 (Z.log2 (4 * m + 2) + e) in
  shortestFrom (Z.to_nat (top - Z.min e 0 + 1)) m e top.

Definition digitAt (ds : string) (i : Z) : ascii :=
  if i <? 0 then "0"%char
  else match String.get (Z.to_nat i) ds with Some c => c | None => "0"%char end.

Fixpoint digitsFrom (ds : string) (from : Z) (count : nat) : string :=
  match count with
  | O => ""
  | S k => String (digitAt ds from) (digitsFrom ds (from + 1) k)
  end.

(** [%f] with the shortest digits [ds] and decimal point [dp]
    ([0.ds * 10^dp]). *)
Definition fmtF (ds : string) (dp : Z) : string :=
  let nd := Z.of_nat (String.length ds) in
  (if 0 <? dp then digitsFrom ds 0 (Z.to_nat dp) else "0")
  ++ (if dp <? nd then "." ++ digitsFrom ds dp (Z.to_nat (nd - dp)) else "").

(** [%e] with the shortest digits; [clean] is the step of
    [encoding/json] that turns [e-09] into [e-9]. *)
Definition fmtE (clean : bool) (ds : string) (dp : Z) : string :=
  let exp := dp - 1 in
  let a := gotime.digits (Z.abs exp) in
  match ds with
  | EmptyString => ""
  | String d rest =>
      String d (match rest with EmptyString => "" | _ => "." ++ rest end)
      ++ "e" ++ (if exp <? 0 then "-" else "+")
      ++ (if (Z.abs exp <? 10) && negb (clean && (exp <? 0)) then "0" else "")
      ++ a
  end.

(** [abs < 1e-6 || abs >= 1e21], the test by which [encoding/json]
    picks ['e'] over ['f']; [1e-6] is the [float64] nearest to it,
    [4722366482869645 * 2^-72], and [1e21] is exact. *)
Definition usesExponent (m e : Z) : bool :=
  let below :=
    if e <=? -72 then m <? 4722366482869645 * 2 ^ (-72 - e)
    else m * 2 ^ (e + 72) <? 4722366482869645 in
  let above :=
    if e <=? 0 then 10 ^ 21 * 2 ^ (- e) <=? m else 10 ^ 21 <=? m * 2 ^ e in
  below || above.

(** The text [encoding/json] writes for a [float64] that is neither
    NaN nor infinite. *)
Definition jsonFloat (f : spec_float) : string :=
  match f with
  | S754_zero s => if s then "-0" else "0"
  | S754_finite s m e =>
      let '(c, q) := shortest (Z.pos m) e in
      let ds := gotime.digits c in
      let dp := Z.of_nat (String.length ds) + q in
      (if s then "-" else "")
      ++ (if usesExponent (Z.pos m) e then fmtE true ds dp else fmtF ds dp)
  | _ => ""
  end.

End strconv.

(** ** Package [encoding/json] *)
Module gojson.

(** A JSON document.  An object keeps its members in the order they
    were written. *)
Inductive tree : Type :=
| JNull
| JInt (z : Z)
| JFloat (f : spec_float)
| JString (s : string)
| JArray (items : list tree)
| JObject (members : list (string * tree)).

(** What [Marshal] sees of a Go value by reflection: its kind, and for a
    struct the fields in declaration order, each with the name and the
    [omitempty] flag of its [json:"..."] tag. *)
Inductive value : Type :=
| VInt (z : Z)
| VFloat64 (f : spec_float)
| VString (s : string)
| VSlice (elems : option (list value))
| VPtr (target : option value)
| VStruct (fields : list (string * bool * value))
| VMarshaler (document : tree).

(** [isEmptyValue]: what [omitempty] leaves out. *)
Definition isEmptyValue (v : value) : bool :=
  match v with
  | VInt z => z =? 0
  | VFloat64 (S754_zero _) => true
  | VFloat64 _ => false
  | VString s => (String.length s =? 0)%nat
  | VSlice None => true
  | VSlice (Some l) => (List.length l =? 0)%nat
  | VPtr None => true
  | VPtr (Some _) => false
  | VStruct _ => false
  | VMarshaler _ => false
  end.

(** The encoder proper ([reflectValue]): fields in order, a field
    tagged [omitempty] skipped when empty, a nil pointer or slice
    written as [null], NaN and the infinities refused. *)
Fixpoint encode (v : value) : Result tree :=
  match v with
  | VInt z => inr (JInt z)
  | VFloat64 f =>
      match f with
      | S754_nan | S754_infinity _ => inl (UnsupportedValueError f)
      | _ => inr (JFloat f)
      end
  | VString s => inr (JString s)
  | VSlice None => inr JNull
  | VSlice (Some l) =>
      items <- (fix each (l : list value) : Result (list tree) :=
                  match l with
                  | [] => inr []
                  | x :: rest =>
                      x' <- encode x ;; rest' <- each rest ;; inr (x' :: rest')
                  end) l ;;
      inr (JArray items)
  | VPtr None => inr JNull
  | VPtr (Some target) => encode target
  | VStruct fields =>
      members <- (fix each (fs : list (string * bool * value))
                    : Result (list (string * tree)) :=
                    match fs with
                    | [] => inr []
                    | (name, omitempty, x) :: rest =>
                        if omitempty && isEmptyValue x then each rest
                        else
                          x' <- encode x ;; rest' <- each rest ;;
                          inr ((name, x') :: rest')
                    end) fields ;;
      inr (JObject members)
  | VMarshaler document => inr document
  end.

(** *** Strings: [encodeState.string] with [escapeHTML] on *)

Definition hex (n : N) : ascii :=
  match String.get (N.to_nat n) "0123456789abcdef" with
  | Some c => c
  | None => "0"%char
  end.

(** [htmlSafeSet]: the ASCII bytes written as they are. *)
Definition htmlSafe (b : N) : bool :=
  ((32 <=? b) && (b <? 128)
   && negb ((b =? 34) || (b =? 38) || (b =? 60) || (b =? 62) || (b =? 92)))%N.

Definition escapeByte (b : N) : string :=
  (if (b =? 92) || (b =? 34) then String "\" (String (ascii_of_N b) "")
   else if b =? 10 then "\n"
   else if b =? 13 then "\r"
   else if b =? 9 then "\t"
   else "\u00" ++ String (hex (b / 16)) (String (hex (b mod 16)) ""))%N.

Definition inRange (lo hi : N) (c : ascii) : bool :=
  let b := N_of_ascii c in ((lo <=? b) && (b <=? hi))%N.

(** The range [utf8.DecodeRuneInString] accepts for the second byte
    after the lead byte [b]. *)
Definition second (b : N) (c : ascii) : bool :=
  (if b =? 224 then inRange 160 191 c
   else if b =? 237 then inRange 128 159 c
   else if b =? 240 then inRange 144 191 c
   else if b =? 244 then inRange 128 143 c
   else inRange 128 191 c)%N.

Definition cont (c : ascii) : bool := inRange 128 191 c.

Definition replacement : string := "\ufffd".

Fixpoint escape (s : string) : string :=
  match s with
  | EmptyString => ""
  | String a s1 =>
    let b := N_of_ascii a in
    if (b <? 128)%N then
      (if htmlSafe b then String a (escape s1) else escapeByte b ++ escape s1)
    else
      match s1 with
      | String a1 s2 =>
        if ((194 <=? b) && (b <=? 223))%N && cont a1 then
          String a (String a1 (escape s2))
        else
          match s2 with
          | String a2 s3 =>
            if ((224 <=? b) && (b <=? 239))%N && second b a1 && cont a2 then
              if (b =? 226)%N && (N_of_ascii a1 =? 128)%N
                 && ((N_of_ascii a2 =? 168)%N || (N_of_ascii a2 =? 169)%N)
              then "\u202" ++ String (hex (N_of_ascii a2 - 160)) (escape s3)
              else String a (String a1 (String a2 (escape s3)))
            else
              match s3 with
              | String a3 s4 =>
                if ((240 <=? b) && (b <=? 244))%N
                   && second b a1 && cont a2 && cont a3
                then String a (String a1 (String a2 (String a3 (escape s4))))
                else replacement ++ escape s1
              | EmptyString => replacement ++ escape s1
              end
          | EmptyString => replacement ++ escape s1
          end
      | EmptyString => replacement ++ escape s1
      end
  end.

(** The double quote, byte 34. *)
Definition dquote : ascii := ascii_of_N 34.

Definition quote (s : string) : string :=
  String dquote (escape s ++ String dquote "").

(** *** The bytes of a document: compact, members in order *)
Fixpoint render (j : tree) : bytes :=
  match j with
  | JNull => "null"
  | JInt z => strconv.Itoa z
  | JFloat f => strconv.jsonFloat f
  | JString s => quote s
  | JArray items =>
      "[" ++ (fix each (l : list tree) : string :=
                match l with
                | [] => ""
                | x :: [] => render x
                | x :: rest => render x ++ "," ++ each rest
                end) items ++ "]"
  | JObject members =>
      "{" ++ (fix each (l : list (string * tree)) : string :=
                match l with
                | [] => ""
                | (k, x) :: [] => quote k ++ ":" ++ render x
                | (k, x) :: rest => quote k ++ ":" ++ render x ++ "," ++ each rest
                end) members ++ "}"
  end.

(** [json.Marshal]: the bytes, or [nil] and the error. *)
Definition Marshal (v : value) : returned :=
  match encode v with
  | inl err => (None, Some err)
  | inr j => (Some (render j), None)
  end.

(** *** Reading a document *)

Definition keys (j : tree) : list string :=
  match j with
  | JObject members => map fst members
  | _ => []
  end.

Fixpoint assoc (k : string) (members : list (string * tree)) : option tree :=
  match members with
  | [] => None
  | (k', x) :: rest => if String.eqb k k' then Some x else assoc k rest
  end.

(** The member [k] of an object, [None] when the key is absent. *)
Definition member (k : string) (j : tree) : option tree :=
  match j with
  | JObject members => assoc k members
  | _ => None
  end.

End gojson.

(** [Date.MarshalJSON], as [encoding/json] takes it up: a JSON string
    holding the date (see [omise.String]). *)
Definition dateValue (d : omise.Date) : gojson.value :=
  gojson.VMarshaler (gojson.JString (omise.String d)).

Definition nonEmpty (s : string) : bool := negb (String.eqb s "").

Definition notNil {A : Type} (l : option (list A)) : bool :=
  match l with Some _ => true | None => false end.

(** ** Package [internal]: the operation descriptor *)
Module internal.

(** Modelled from the spec: [internal.Op] is declared outside this
    file; it is the "generic HTTP-operation descriptor (method, path,
    endpoint selector, content type, query values)".  A field a
    composite literal leaves out holds its zero value: [nil] values,
    the empty content type. *)
Inductive Endpoint : Type := API | Vault.

Record Op : Type := mkOp {
  endpoint : Endpoint;
  Method : string;
  Path : string;
  Values : option (list (string * list string));
  ContentType : string
}.

End internal.

(** ** [CreateChargeSchedule]

    A Go [int] is an integer [Z] here (the code does no arithmetic on it,
    only prints it), a [float64] a [spec_float], a slice [None] when nil.
    What is proved of every [Z] and every [spec_float] holds of the
    64-bit values Go has. *)
Module CreateChargeSchedule.

Record t : Type := mk {
  Every : Z;
  Period : schedule.Period;
  StartDate : string;
  EndDate : string;
  Weekdays : schedule.Weekdays;
  DaysOfMonth : schedule.DaysOfMonth;
  WeekdayOfMonth : string;
  Customer : string;
  Amount : Z;
  Currency : string;
  Card : string;
  Description : string
}.

(** The three types local to [MarshalJSON], and for each the view
    [encoding/json] has of it: the fields in order with their tags. *)
Record charge : Type := mkCharge {
  charge_Customer : string;       (* `json:"customer"` *)
  charge_Amount : Z;              (* `json:"amount"` *)
  charge_Currency : string;       (* `json:"currency,omitempty"` *)
  charge_Card : string;           (* `json:"card,omitempty"` *)
  charge_Description : string     (* `json:"description,omitempty"` *)
}.

Definition chargeValue (c : charge) : gojson.value :=
  gojson.VStruct
    [ ("customer", false, gojson.VString (charge_Customer c));
      ("amount", false, gojson.VInt (charge_Amount c));
      ("currency", true, gojson.VString (charge_Currency c));
      ("card", true, gojson.VString (charge_Card c));
      ("description", true, gojson.VString (charge_Description c)) ].

Record on : Type := mkOn {
  on_Weekdays : option (list schedule.Weekday);  (* `json:"weekdays,omitempty"` *)
  on_DaysOfMonth : option (list Z);              (* `json:"days_of_month,omitempty"` *)
  on_WeekdayOfMonth : string                     (* `json:"weekday_of_month,omitempty"` *)
}.

Definition onValue (o : on) : gojson.value :=
  gojson.VStruct
    [ ("weekdays", true,
        gojson.VSlice (option_map (map gojson.VString) (on_Weekdays o)));
      ("days_of_month", true,
        gojson.VSlice (option_map (map gojson.VInt) (on_DaysOfMonth o)));
      ("weekday_of_month", true, gojson.VString (on_WeekdayOfMonth o)) ].

Record param : Type := mkParam {
  param_Every : Z;                       (* `json:"every"` *)
  param_Period : schedule.Period;        (* `json:"period"` *)
  param_StartDate : option omise.Date;   (* `json:"start_date,omitempty"`, a pointer *)
  param_EndDate : omise.Date;            (* `json:"end_date"` *)
  param_On : option on;                  (* `json:"on,omitempty"`, a pointer *)
  param_Charge : charge                  (* `json:"charge"` *)
}.

Definition paramValue (p : param) : gojson.value :=
  gojson.VStruct
    [ ("every", false, gojson.VInt (param_Every p));
      ("period", false, gojson.VString (param_Period p));
      ("start_date", true, gojson.VPtr (option_map dateValue (param_StartDate p)));
      ("end_date", false, dateValue (param_EndDate p));
      ("on", true, gojson.VPtr (option_map onValue (param_On p)));
      ("charge", false, chargeValue (param_Charge p)) ].

Definition setStartDate (p : param) (d : option omise.Date) : param :=
  mkParam (param_Every p) (param_Period p) d (param_EndDate p) (param_On p)
          (param_Charge p).

Definition setEndDate (p : param) (d : omise.Date) : param :=
  mkParam (param_Every p) (param_Period p) (param_StartDate p) d (param_On p)
          (param_Charge p).

Definition setOn (p : param) (o : option on) : param :=
  mkParam (param_Every p) (param_Period p) (param_StartDate p) (param_EndDate p) o
          (param_Charge p).

(** The body of [MarshalJSON] up to the final [json.Marshal(p)]. *)
Definition params (req : t) : Result param :=
  let p :=
    {| param_Every := Every req;
       param_Period := Period req;
       param_StartDate := None;
       param_EndDate := gotime.zero;
       param_On := None;
       param_Charge :=
         {| charge_Customer := Customer req;
            charge_Amount := Amount req;
            charge_Currency := Currency req;
            charge_Card := Card req;
            charge_Description := Description req |} |} in
  p <- (if nonEmpty (StartDate req) then
          startDate <- gotime.Parse (StartDate req) ;;
          inr (setStartDate p (Some startDate))
        else inr p) ;;
  p <- (if nonEmpty (EndDate req) then
          endDate <- gotime.Parse (EndDate req) ;;
          inr (setEndDate p endDate)
        else inr p) ;;
  inr (if String.eqb (param_Period p) "week" then
         setOn p (Some {| on_Weekdays := Weekdays req;
                          on_DaysOfMonth := None;
                          on_WeekdayOfMonth := "" |})
       else if String.eqb (param_Period p) "month" && notNil (DaysOfMonth req) then
         setOn p (Some {| on_Weekdays := None;
                          on_DaysOfMonth := DaysOfMonth req;
                          on_WeekdayOfMonth := "" |})
       else if String.eqb (param_Period p) "month"
               && nonEmpty (WeekdayOfMonth req) then
         setOn p (Some {| on_Weekdays := None;
                          on_DaysOfMonth := None;
                          on_WeekdayOfMonth := WeekdayOfMonth req |})
       else p).

Definition MarshalJSON (req : t) : returned :=
  match params req with
  | inl err => (None, Some err)
  | inr p => gojson.Marshal (paramValue p)
  end.

(** The document whose bytes [MarshalJSON] returns. *)
Definition document (req : t) : Result gojson.tree :=
  p <- params req ;; gojson.encode (paramValue p).

Definition Op (req : t) : internal.Op :=
  {| internal.endpoint := internal.API;
     internal.Method := "POST";
     internal.Path := "/schedules";
     internal.Values := Some [];
     internal.ContentType := "application/json" |}.

End CreateChargeSchedule.

(** ** [CreateTransferSchedule] *)
Module CreateTransferSchedule.

Record t : Type := mk {
  Every : Z;
  Period : schedule.Period;
  StartDate : string;
  EndDate : string;
  Weekdays : schedule.Weekdays;
  DaysOfMonth : schedule.DaysOfMonth;
  WeekdayOfMonth : string;
  Recipient : string;
  Amount : Z;
  PercentageOfBalance : spec_float
}.

Record transfer : Type := mkTransfer {
  transfer_Recipient : string;                (* `json:"recipient"` *)
  transfer_Amount : Z;                        (* `json:"amount,omitempty"` *)
  transfer_PercentageOfBalance : spec_float   (* `json:"percentage_of_balance,omitempty"` *)
}.

Definition transferValue (x : transfer) : gojson.value :=
  gojson.VStruct
    [ ("recipient", false, gojson.VString (transfer_Recipient x));
      ("amount", true, gojson.VInt (transfer_Amount x));
      ("percentage_of_balance", true,
        gojson.VFloat64 (transfer_PercentageOfBalance x)) ].

Record on : Type := mkOn {
  on_Weekdays : option (list schedule.Weekday);  (* `json:"weekdays,omitempty"` *)
  on_DaysOfMonth : option (list Z);              (* `json:"days_of_month,omitempty"` *)
  on_WeekdayOfMonth : string                     (* `json:"weekday_of_month,omitempty"` *)
}.

Definition onValue (o : on) : gojson.value :=
  gojson.VStruct
    [ ("weekdays", true,
        gojson.VSlice (option_map (map gojson.VString) (on_Weekdays o)));
      ("days_of_month", true,
        gojson.VSlice (option_map (map gojson.VInt) (on_DaysOfMonth o)));
      ("weekday_of_month", true, gojson.VString (on_WeekdayOfMonth o)) ].

Record param : Type := mkParam {
  param_Every : Z;                       (* `json:"every"` *)
  param_Period : schedule.Period;        (* `json:"period"` *)
  param_StartDate : option omise.Date;   (* `json:"start_date,omitempty"`, a pointer *)
  param_EndDate : omise.Date;            (* `json:"end_date"` *)
  param_On : option on;                  (* `json:"on,omitempty"`, a pointer *)
  param_Transfer : transfer              (* `json:"transfer"` *)
}.

Definition paramValue (p : param) : gojson.value :=
  gojson.VStruct
    [ ("every", false, gojson.VInt (param_Every p));
      ("period", false, gojson.VString (param_Period p));
      ("start_date", true, gojson.VPtr (option_map dateValue (param_StartDate p)));
      ("end_date", false, dateValue (param_EndDate p));
      ("on", true, gojson.VPtr (option_map onValue (param_On p)));
      ("transfer", false, transferValue (param_Transfer p)) ].

Definition setStartDate (p : param) (d : option omise.Date) : param :=
  mkParam (param_Every p) (param_Period p) d (param_EndDate p) (param_On p)
          (param_Transfer p).

Definition setEndDate (p : param) (d : omise.Date) : param :=
  mkParam (param_Every p) (param_Period p) (param_StartDate p) d (param_On p)
          (param_Transfer p).

Definition setOn (p : param) (o : option on) : param :=
  mkParam (param_Every p) (param_Period p) (param_StartDate p) (param_EndDate p) o
          (param_Transfer p).

(** The body of [MarshalJSON] up to the final [json.Marshal(p)]. *)
Definition params (req : t) : Result param :=
  let p :=
    {| param_Every := Every req;
       param_Period := Period req;
       param_StartDate := None;
       param_EndDate := gotime.zero;
       param_On := None;
       param_Transfer :=
         {| transfer_Recipient := Recipient req;
            transfer_Amount := Amount req;
            transfer_PercentageOfBalance := PercentageOfBalance req |} |} in
  p <- (if nonEmpty (StartDate req) then
          startDate <- gotime.Parse (StartDate req) ;;
          inr (setStartDate p (Some startDate))
        else inr p) ;;
  p <- (if nonEmpty (EndDate req) then
          endDate <- gotime.Parse (EndDate req) ;;
          inr (setEndDate p endDate)
        else inr p) ;;
  inr (if String.eqb (param_Period p) "week" then
         setOn p (Some {| on_Weekdays := Weekdays req;
                          on_DaysOfMonth := None;
                          on_WeekdayOfMonth := "" |})
       else if String.eqb (param_Period p) "month" && notNil (DaysOfMonth req) then
         setOn p (Some {| on_Weekdays := None;
                          on_DaysOfMonth := DaysOfMonth req;
                          on_WeekdayOfMonth := "" |})
       else if String.eqb (param_Period p) "month"
               && nonEmpty (WeekdayOfMonth req) then
         setOn p (Some {| on_Weekdays := None;
                          on_DaysOfMonth := None;
                          on_WeekdayOfMonth := WeekdayOfMonth req |})
       else p).

Definition MarshalJSON (req : t) : returned :=
  match params req with
  | inl err => (None, Some err)
  | inr p => gojson.Marshal (paramValue p)
  end.

(** The document whose bytes [MarshalJSON] returns. *)
Definition document (req : t) : Result gojson.tree :=
  p <- params req ;; gojson.encode (paramValue p).

Definition Op (req : t) : internal.Op :=
  {| internal.endpoint := internal.API;
     internal.Method := "POST";
     internal.Path := "/schedules";
     internal.Values := Some [];
     internal.ContentType := "application/json" |}.

End CreateTransferSchedule.

(** ** [RetrieveSchedule] and [DestroySchedule] *)
Module RetrieveSchedule.

Record t : Type := mk { ScheduleID : string (* `query:"-"` *) }.

Definition Op (req : t) : internal.Op :=
  {| internal.endpoint := internal.API;
     internal.Method := "GET";
     internal.Path := "/schedules/" ++ ScheduleID req;
     internal.Values := None;
     internal.ContentType := "" |}.

End RetrieveSchedule.

Module DestroySchedule.

Record t : Type := mk { ScheduleID : string (* `query:"-"` *) }.

Definition Op (req : t) : internal.Op :=
  {| internal.endpoint := internal.API;
     internal.Method := "DELETE";
     internal.Path := "/schedules/" ++ ScheduleID req;
     internal.Values := None;
     internal.ContentType := "" |}.

End DestroySchedule.

(** ** [ListSchedules]

    The request embeds the shared [List] parameters, which are declared
    outside this file; [Op] does not read them, so the request is taken
    over any type of them. *)
Module ListSchedules.

Record t (List : Type) : Type := mk { list : List }.

Definition Op {List : Type} (req : t List) : internal.Op :=
  {| internal.endpoint := internal.API;
     internal.Method := "GET";
     internal.Path := "/schedules";
     internal.Values := None;
     internal.ContentType := "application/json" |}.

End ListSchedules.

(** ** The two create requests side by side

    Both request types implement [json.Marshaler] and
    [internal.Operation]; a value of either is a [CreateSchedule.t], and
    the shared cadence fields are read through it. *)
Module CreateSchedule.

Inductive t : Type :=
| Charge (req : CreateChargeSchedule.t)
| Transfer (req : CreateTransferSchedule.t).

Definition Period (r : t) : schedule.Period :=
  match r with
  | Charge c => CreateChargeSchedule.Period c
  | Transfer x => CreateTransferSchedule.Period x
  end.

Definition StartDate (r : t) : string :=
  match r with
  | Charge c => CreateChargeSchedule.StartDate c
  | Transfer x => CreateTransferSchedule.StartDate x
  end.

Definition EndDate (r : t) : string :=
  match r with
  | Charge c => CreateChargeSchedule.EndDate c
  | Transfer x => CreateTransferSchedule.EndDate x
  end.

Definition Weekdays (r : t) : schedule.Weekdays :=
  match r with
  | Charge c => CreateChargeSchedule.Weekdays c
  | Transfer x => CreateTransferSchedule.Weekdays x
  end.

Definition DaysOfMonth (r : t) : schedule.DaysOfMonth :=
  match r with
  | Charge c => CreateChargeSchedule.DaysOfMonth c
  | Transfer x => CreateTransferSchedule.DaysOfMonth x
  end.

Definition WeekdayOfMonth (r : t) : string :=
  match r with
  | Charge c => CreateChargeSchedule.WeekdayOfMonth c
  | Transfer x => CreateTransferSchedule.WeekdayOfMonth x
  end.

Definition MarshalJSON (r : t) : returned :=
  match r with
  | Charge c => CreateChargeSchedule.MarshalJSON c
  | Transfer x => CreateTransferSchedule.MarshalJSON x
  end.

Definition document (r : t) : Result gojson.tree :=
  match r with
  | Charge c => CreateChargeSchedule.document c
  | Transfer x => CreateTransferSchedule.document x
  end.

Definition Op (r : t) : internal.Op :=
  match r with
  | Charge c => CreateChargeSchedule.Op c
  | Transfer x => CreateTransferSchedule.Op x
  end.

(** The key of the nested action object. *)
Definition action (r : t) : string :=
  match r with
  | Charge _ => "charge"
  | Transfer _ => "transfer"
  end.

End CreateSchedule.

(** ** Vocabulary of the statements *)

(** A date string that is set and does not parse. *)
Definition dateFails (s : string) : Prop :=
  s <> "" /\ gotime.parseDate s = None.

(** NaN or an infinity: the [float64] values JSON has no text for. *)
Definition unsupported (f : spec_float) : bool :=
  match f with
  | S754_nan | S754_infinity _ => true
  | _ => false
  end.

Definition isZero (f : spec_float) : bool :=
  match f with
  | S754_zero _ => true
  | _ => false
  end.

(** A transfer request whose percentage JSON cannot hold. *)
Definition badPercentage (r : CreateSchedule.t) : Prop :=
  match r with
  | CreateSchedule.Charge _ => False
  | CreateSchedule.Transfer x =>
      unsupported (CreateTransferSchedule.PercentageOfBalance x) = true
  end.

(** One key when the condition holds, none otherwise. *)
Definition keyIf (b : bool) (k : string) : list string :=
  if b then [k] else [].

(** The switch of [MarshalJSON] attaches a selector. *)
Definition hasSelector (r : CreateSchedule.t) : bool :=
  String.eqb (CreateSchedule.Period r) "week"
  || (String.eqb (CreateSchedule.Period r) "month"
      && (notNil (CreateSchedule.DaysOfMonth r)
          || nonEmpty (CreateSchedule.WeekdayOfMonth r))).

(** The members a non-empty slice contributes under key [k]. *)
Definition sliceMember {A : Type} (k : string) (item : A -> gojson.tree)
    (l : option (list A)) : list (string * gojson.tree) :=
  match l with
  | Some (x :: rest) => [(k, gojson.JArray (map item (x :: rest)))]
  | _ => []
  end.

Definition stringMember (k s : string) : list (string * gojson.tree) :=
  if nonEmpty s then [(k, gojson.JString s)] else [].

(** The members of an encoded [on] struct. *)
Definition onMembers (w : option (list string)) (d : option (list Z)) (s : string)
    : list (string * gojson.tree) :=
  sliceMember "weekdays" gojson.JString w
  ++ sliceMember "days_of_month" gojson.JInt d
  ++ stringMember "weekday_of_month" s.

Definition pointerMember {A : Type} (k : string) (item : A -> gojson.tree)
    (p : option A) : list (string * gojson.tree) :=
  match p with
  | Some x => [(k, item x)]
  | None => []
  end.

(** JSON text written with ['] for the double quote, to be read with the
    quotes put back. *)
Fixpoint wire (s : string) : bytes :=
  match s with
  | EmptyString => ""
  | String c rest =>
      String (if Ascii.eqb c "'" then gojson.dquote else c) (wire rest)
  end.

(** The text between the braces of an object, as [gojson.render] writes
    it. *)
Fixpoint renderMembers (l : list (string * gojson.tree)) : string :=
  match l with
  | [] => ""
  | (k, x) :: [] => gojson.quote k ++ ":" ++ gojson.render x
  | (k, x) :: rest =>
      gojson.quote k ++ ":" ++ gojson.render x ++ "," ++ renderMembers rest
  end.

(** Requests used as concrete inputs below. *)
Definition chargeEachDay : CreateSchedule.t :=
  CreateSchedule.Charge
    (CreateChargeSchedule.mk 3 "day" "2017-05-15" "2018-05-15" None None ""
       "customer_id" 100000 "" "" "").

Definition chargeBare : CreateSchedule.t :=
  CreateSchedule.Charge
    (CreateChargeSchedule.mk 1 "day" "" "2018-05-15" None None "" "" 0 "" "" "").

Definition chargeWeekNoDays : CreateSchedule.t :=
  CreateSchedule.Charge
    (CreateChargeSchedule.mk 3 "week" "2017-05-15" "2018-05-15" (Some []) None ""
       "customer_id" 100000 "" "" "").

Definition chargeMonthBoth : CreateSchedule.t :=
  CreateSchedule.Charge
    (CreateChargeSchedule.mk 3 "month" "2017-05-15" "2018-05-15" None (Some [1; 15])
       "last_thursday" "customer_id" 100000 "" "" "").

Definition chargeMonthNoDays : CreateSchedule.t :=
  CreateSchedule.Charge
    (CreateChargeSchedule.mk 3 "month" "2017-05-15" "2018-05-15" None (Some [])
       "last_thursday" "customer_id" 100000 "" "" "").

Definition chargeNoDates : CreateSchedule.t :=
  CreateSchedule.Charge
    (CreateChargeSchedule.mk 3 "day" "" "" None None "" "customer_id" 100000 "" "" "").

Definition transferNaN : CreateSchedule.t :=
  CreateSchedule.Transfer
    (CreateTransferSchedule.mk 3 "day" "2017-05-15" "2018-05-15" None None ""
       "recipient_id" 0 S754_nan).


(** ** The encoded request, written out

    What [encoding/json] makes of the local structs, member by member;
    the lemmas below show the encoder produces exactly these. *)

Definition chargeMembers (c : CreateChargeSchedule.charge)
    : list (string * gojson.tree) :=
  [ ("customer", gojson.JString (CreateChargeSchedule.charge_Customer c));
    ("amount", gojson.JInt (CreateChargeSchedule.charge_Amount c)) ]
  ++ stringMember "currency" (CreateChargeSchedule.charge_Currency c)
  ++ stringMember "card" (CreateChargeSchedule.charge_Card c)
  ++ stringMember "description" (CreateChargeSchedule.charge_Description c).

Definition transferMembers (x : CreateTransferSchedule.transfer)
    : list (string * gojson.tree) :=
  [ ("recipient", gojson.JString (CreateTransferSchedule.transfer_Recipient x)) ]
  ++ (if CreateTransferSchedule.transfer_Amount x =? 0 then []
      else [("amount", gojson.JInt (CreateTransferSchedule.transfer_Amount x))])
  ++ (if isZero (CreateTransferSchedule.transfer_PercentageOfBalance x) then []
      else [("percentage_of_balance",
             gojson.JFloat (CreateTransferSchedule.transfer_PercentageOfBalance x))]).

(** The top-level members before the action object. *)
Definition cadenceMembers (every : Z) (period : string) (start : option omise.Date)
    (finish : omise.Date) (selector : option (list (string * gojson.tree)))
    : list (string * gojson.tree) :=
  [ ("every", gojson.JInt every); ("period", gojson.JString period) ]
  ++ pointerMember "start_date" (fun d => gojson.JString (omise.String d)) start
  ++ [ ("end_date", gojson.JString (omise.String finish)) ]
  ++ pointerMember "on" gojson.JObject selector.

Definition chargeOn (o : CreateChargeSchedule.on) : list (string * gojson.tree) :=
  onMembers (CreateChargeSchedule.on_Weekdays o)
    (CreateChargeSchedule.on_DaysOfMonth o)
    (CreateChargeSchedule.on_WeekdayOfMonth o).

Definition transferOn (o : CreateTransferSchedule.on) : list (string * gojson.tree) :=
  onMembers (CreateTransferSchedule.on_Weekdays o)
    (CreateTransferSchedule.on_DaysOfMonth o)
    (CreateTransferSchedule.on_WeekdayOfMonth o).

(** The two date steps of [MarshalJSON]. *)
Definition parsedStart (s : string) : Result (option omise.Date) :=
  if nonEmpty s then d <- gotime.Parse s ;; inr (Some d) else inr None.

Definition parsedEnd (s : string) : Result omise.Date :=
  if nonEmpty s then gotime.Parse s else inr gotime.zero.

(** The members of the selector the switch attaches, if it attaches one. *)
Definition selected (period : string) (w : option (list string))
    (d : option (list Z)) (s : string) : option (list (string * gojson.tree)) :=
  if String.eqb period "week" then Some (onMembers w None "")
  else if String.eqb period "month" && notNil d then Some (onMembers None d "")
  else if String.eqb period "month" && nonEmpty s then Some (onMembers None None s)
  else None.

Definition chargeOf (req : CreateChargeSchedule.t) : CreateChargeSchedule.charge :=
  {| CreateChargeSchedule.charge_Customer := CreateChargeSchedule.Customer req;
     CreateChargeSchedule.charge_Amount := CreateChargeSchedule.Amount req;
     CreateChargeSchedule.charge_Currency := CreateChargeSchedule.Currency req;
     CreateChargeSchedule.charge_Card := CreateChargeSchedule.Card req;
     CreateChargeSchedule.charge_Description :=
       CreateChargeSchedule.Description req |}.

Definition transferOf (req : CreateTransferSchedule.t)
    : CreateTransferSchedule.transfer :=
  {| CreateTransferSchedule.transfer_Recipient :=
       CreateTransferSchedule.Recipient req;
     CreateTransferSchedule.transfer_Amount := CreateTransferSchedule.Amount req;
     CreateTransferSchedule.transfer_PercentageOfBalance :=
       CreateTransferSchedule.PercentageOfBalance req |}.

Definition every (r : CreateSchedule.t) : Z :=
  match r with
  | CreateSchedule.Charge c => CreateChargeSchedule.Every c
  | CreateSchedule.Transfer x => CreateTransferSchedule.Every x
  end.

Definition actionMembers (r : CreateSchedule.t) : list (string * gojson.tree) :=
  match r with
  | CreateSchedule.Charge c => chargeMembers (chargeOf c)
  | CreateSchedule.Transfer x => transferMembers (transferOf x)
  end.

(** The percentage of a transfer request that JSON cannot hold. *)
Definition refused (r : CreateSchedule.t) : option spec_float :=
  match r with
  | CreateSchedule.Charge _ => None
  | CreateSchedule.Transfer x =>
      if unsupported (CreateTransferSchedule.PercentageOfBalance x)
      then Some (CreateTransferSchedule.PercentageOfBalance x)
      else None
  end.

(** The whole document of a request. *)
Definition written (r : CreateSchedule.t) : Result gojson.tree :=
  start <- parsedStart (CreateSchedule.StartDate r) ;;
  finish <- parsedEnd (CreateSchedule.EndDate r) ;;
  match refused r with
  | Some f => inl (UnsupportedValueError f)
  | None =>
      inr (gojson.JObject
             (cadenceMembers (every r) (CreateSchedule.Period r) start finish
                (selected (CreateSchedule.Period r) (CreateSchedule.Weekdays r)
                   (CreateSchedule.DaysOfMonth r)
                   (CreateSchedule.WeekdayOfMonth r))
              ++ [(CreateSchedule.action r, gojson.JObject (actionMembers r))]))
  end.

(** ** Vocabulary of the further properties *)

(** The request [r] with its three selector fields replaced. *)
Definition withSelector (r : CreateSchedule.t) (w : schedule.Weekdays)
    (d : schedule.DaysOfMonth) (s : string) : CreateSchedule.t :=
  match r with
  | CreateSchedule.Charge c =>
      CreateSchedule.Charge
        (CreateChargeSchedule.mk (CreateChargeSchedule.Every c)
           (CreateChargeSchedule.Period c) (CreateChargeSchedule.StartDate c)
           (CreateChargeSchedule.EndDate c) w d s
           (CreateChargeSchedule.Customer c) (CreateChargeSchedule.Amount c)
           (CreateChargeSchedule.Currency c) (CreateChargeSchedule.Card c)
           (CreateChargeSchedule.Description c))
  | CreateSchedule.Transfer x =>
      CreateSchedule.Transfer
        (CreateTransferSchedule.mk (CreateTransferSchedule.Every x)
           (CreateTransferSchedule.Period x) (CreateTransferSchedule.StartDate x)
           (CreateTransferSchedule.EndDate x) w d s
           (CreateTransferSchedule.Recipient x) (CreateTransferSchedule.Amount x)
           (CreateTransferSchedule.PercentageOfBalance x))
  end.

(** A charge request and a transfer request with the same cadence and
    selector fields. *)
Definition sameCadence (c : CreateChargeSchedule.t) (x : CreateTransferSchedule.t)
    : Prop :=
  CreateChargeSchedule.Every c = CreateTransferSchedule.Every x
  /\ CreateChargeSchedule.Period c = CreateTransferSchedule.Period x
  /\ CreateChargeSchedule.StartDate c = CreateTransferSchedule.StartDate x
  /\ CreateChargeSchedule.EndDate c = CreateTransferSchedule.EndDate x
  /\ CreateChargeSchedule.Weekdays c = CreateTransferSchedule.Weekdays x
  /\ CreateChargeSchedule.DaysOfMonth c = CreateTransferSchedule.DaysOfMonth x
  /\ CreateChargeSchedule.WeekdayOfMonth c
     = CreateTransferSchedule.WeekdayOfMonth x.

(** The action key of the other request type. *)
Definition otherAction (r : CreateSchedule.t) : string :=
  match r with
  | CreateSchedule.Charge _ => "transfer"
  | CreateSchedule.Transfer _ => "charge"
  end.

(** The ten digit characters, and the check that zero-padded printing
    gives back the digits a number was read from. *)
Definition digitChars : list ascii :=
  ["0"; "1"; "2"; "3"; "4"; "5"; "6"; "7"; "8"; "9"]%char.

Definition twoDigitsBack : bool :=
  forallb (fun a => forallb (fun b =>
    String.eqb (gotime.appendInt (gotime.digit a * 10 + gotime.digit b) 2)
      (String a (String b ""))) digitChars) digitChars.

Definition fourDigitsBack : bool :=
  forallb (fun a => forallb (fun b => forallb (fun c => forallb (fun d =>
    String.eqb
      (gotime.appendInt
         (((gotime.digit a * 10 + gotime.digit b) * 10 + gotime.digit c) * 10
          + gotime.digit d) 4)
      (String a (String b (String c (String d "")))))
    digitChars) digitChars) digitChars) digitChars.

(** * Properties *)

(** ** The encoder on the shapes the requests use *)

Lemma length_eqb_empty (s : string) :
  (String.length s =? 0)%nat = String.eqb s "".
Proof. destruct s; reflexivity. Qed.

Lemma nonEmpty_true (s : string) : nonEmpty s = true <-> s <> "".
Proof.
  unfold nonEmpty. destruct (String.eqb_spec s ""); simpl; split; congruence.
Qed.

Lemma nonEmpty_false (s : string) : nonEmpty s = false <-> s = "".
Proof.
  unfold nonEmpty. destruct (String.eqb_spec s ""); simpl; split; congruence.
Qed.

Lemma encode_strings (l : list string) :
  gojson.encode (gojson.VSlice (Some (map gojson.VString l)))
  = inr (gojson.JArray (map gojson.JString l)).
Proof.
  simpl.
  match goal with
  | |- context [ ?each (map gojson.VString l) ] =>
      assert (E : each (map gojson.VString l) = inr (map gojson.JString l))
  end.
  { induction l as [| x rest IH]; simpl; [reflexivity | now rewrite IH]. }
  now rewrite E.
Qed.

Lemma encode_ints (l : list Z) :
  gojson.encode (gojson.VSlice (Some (map gojson.VInt l)))
  = inr (gojson.JArray (map gojson.JInt l)).
Proof.
  simpl.
  match goal with
  | |- context [ ?each (map gojson.VInt l) ] =>
      assert (E : each (map gojson.VInt l) = inr (map gojson.JInt l))
  end.
  { induction l as [| x rest IH]; simpl; [reflexivity | now rewrite IH]. }
  now rewrite E.
Qed.

(** The three fields of an [on] struct, all [omitempty]. *)
Lemma encode_on_fields (w : option (list string)) (d : option (list Z)) (s : string) :
  gojson.encode
    (gojson.VStruct
       [ ("weekdays", true, gojson.VSlice (option_map (map gojson.VString) w));
         ("days_of_month", true, gojson.VSlice (option_map (map gojson.VInt) d));
         ("weekday_of_month", true, gojson.VString s) ])
  = inr (gojson.JObject (onMembers w d s)).
Proof.
  unfold onMembers, stringMember, nonEmpty.
  assert (W : forall l : list string,
             gojson.encode (gojson.VSlice (Some (map gojson.VString l)))
             = inr (gojson.JArray (map gojson.JString l))) by apply encode_strings.
  assert (D : forall l : list Z,
             gojson.encode (gojson.VSlice (Some (map gojson.VInt l)))
             = inr (gojson.JArray (map gojson.JInt l))) by apply encode_ints.
  destruct w as [[| w0 ws] |], d as [[| d0 ds] |];
    cbn [gojson.encode gojson.isEmptyValue option_map map List.length Nat.eqb
         andb sliceMember app];
    rewrite ?length_eqb_empty;
    try (specialize (W (w0 :: ws)); cbn [map] in W);
    try (specialize (D (d0 :: ds)); cbn [map] in D);
    cbn [gojson.encode] in *;
    repeat match goal with
           | H : (match ?e with inl _ => _ | inr _ => _ end) = inr _
             |- context [ ?e ] =>
               let E := fresh "E" in
               destruct e eqn:E; [discriminate H |]; injection H as H; subst
           end;
    destruct (String.eqb s ""); reflexivity.
Qed.

Lemma encode_charge (c : CreateChargeSchedule.charge) :
  gojson.encode (CreateChargeSchedule.chargeValue c)
  = inr (gojson.JObject (chargeMembers c)).
Proof.
  destruct c as [customer amount currency card description].
  unfold CreateChargeSchedule.chargeValue, chargeMembers, stringMember, nonEmpty.
  cbn [gojson.encode gojson.isEmptyValue andb CreateChargeSchedule.charge_Customer
       CreateChargeSchedule.charge_Amount CreateChargeSchedule.charge_Currency
       CreateChargeSchedule.charge_Card CreateChargeSchedule.charge_Description].
  rewrite !length_eqb_empty.
  destruct (String.eqb currency ""), (String.eqb card ""),
    (String.eqb description ""); reflexivity.
Qed.

Lemma encode_transfer (x : CreateTransferSchedule.transfer) :
  gojson.encode (CreateTransferSchedule.transferValue x)
  = if unsupported (CreateTransferSchedule.transfer_PercentageOfBalance x)
    then inl (UnsupportedValueError
                (CreateTransferSchedule.transfer_PercentageOfBalance x))
    else inr (gojson.JObject (transferMembers x)).
Proof.
  destruct x as [recipient amount pct].
  unfold CreateTransferSchedule.transferValue, transferMembers.
  cbn [gojson.encode gojson.isEmptyValue andb
       CreateTransferSchedule.transfer_Recipient
       CreateTransferSchedule.transfer_Amount
       CreateTransferSchedule.transfer_PercentageOfBalance].
  destruct (amount =? 0), pct; reflexivity.
Qed.

Lemma encode_charge_param (p : CreateChargeSchedule.param) :
  gojson.encode (CreateChargeSchedule.paramValue p)
  = inr (gojson.JObject
           (cadenceMembers (CreateChargeSchedule.param_Every p)
              (CreateChargeSchedule.param_Period p)
              (CreateChargeSchedule.param_StartDate p)
              (CreateChargeSchedule.param_EndDate p)
              (option_map chargeOn (CreateChargeSchedule.param_On p))
            ++ [("charge",
                 gojson.JObject
                   (chargeMembers (CreateChargeSchedule.param_Charge p)))])).
Proof.
  destruct p as [every period start finish selector c].
  pose proof (encode_charge c) as C.
  unfold CreateChargeSchedule.paramValue, cadenceMembers, dateValue.
  cbn [CreateChargeSchedule.param_Every CreateChargeSchedule.param_Period
       CreateChargeSchedule.param_StartDate CreateChargeSchedule.param_EndDate
       CreateChargeSchedule.param_On CreateChargeSchedule.param_Charge].
  destruct selector as [o |].
  - pose proof (encode_on_fields (CreateChargeSchedule.on_Weekdays o)
                  (CreateChargeSchedule.on_DaysOfMonth o)
                  (CreateChargeSchedule.on_WeekdayOfMonth o)) as O.
    change (gojson.VStruct _) with (CreateChargeSchedule.onValue o) in O.
    destruct start as [d |];
      cbn [gojson.encode gojson.isEmptyValue andb option_map pointerMember app];
      cbn [gojson.encode] in O, C; rewrite O, C; reflexivity.
  - destruct start as [d |];
      cbn [gojson.encode gojson.isEmptyValue andb option_map pointerMember app];
      cbn [gojson.encode] in C; rewrite C; reflexivity.
Qed.

Lemma encode_transfer_param (p : CreateTransferSchedule.param) :
  gojson.encode (CreateTransferSchedule.paramValue p)
  = if unsupported (CreateTransferSchedule.transfer_PercentageOfBalance
                      (CreateTransferSchedule.param_Transfer p))
    then inl (UnsupportedValueError
                (CreateTransferSchedule.transfer_PercentageOfBalance
                   (CreateTransferSchedule.param_Transfer p)))
    else inr (gojson.JObject
                (cadenceMembers (CreateTransferSchedule.param_Every p)
                   (CreateTransferSchedule.param_Period p)
                   (CreateTransferSchedule.param_StartDate p)
                   (CreateTransferSchedule.param_EndDate p)
                   (option_map transferOn (CreateTransferSchedule.param_On p))
                 ++ [("transfer",
                      gojson.JObject
                        (transferMembers
                           (CreateTransferSchedule.param_Transfer p)))])).
Proof.
  destruct p as [every period start finish selector x].
  pose proof (encode_transfer x) as X.
  unfold CreateTransferSchedule.paramValue, cadenceMembers, dateValue.
  cbn [CreateTransferSchedule.param_Every CreateTransferSchedule.param_Period
       CreateTransferSchedule.param_StartDate CreateTransferSchedule.param_EndDate
       CreateTransferSchedule.param_On CreateTransferSchedule.param_Transfer].
  destruct selector as [o |].
  - pose proof (encode_on_fields (CreateTransferSchedule.on_Weekdays o)
                  (CreateTransferSchedule.on_DaysOfMonth o)
                  (CreateTransferSchedule.on_WeekdayOfMonth o)) as O.
    change (gojson.VStruct _) with (CreateTransferSchedule.onValue o) in O.
    destruct start as [d |];
      cbn [gojson.encode gojson.isEmptyValue andb option_map pointerMember app];
      cbn [gojson.encode] in O, X; rewrite O, X;
      destruct (unsupported _); reflexivity.
  - destruct start as [d |];
      cbn [gojson.encode gojson.isEmptyValue andb option_map pointerMember app];
      cbn [gojson.encode] in X; rewrite X;
      destruct (unsupported _); reflexivity.
Qed.

(** ** [MarshalJSON] as a whole *)

Lemma charge_written (req : CreateChargeSchedule.t) :
  CreateChargeSchedule.document req = written (CreateSchedule.Charge req).
Proof.
  destruct req as [ev period start finish w d s customer amount currency card descr].
  unfold CreateChargeSchedule.document, CreateChargeSchedule.params, written,
    parsedStart, parsedEnd, refused, selected, every, actionMembers, chargeOf.
  cbn [CreateSchedule.StartDate CreateSchedule.EndDate CreateSchedule.Period
       CreateSchedule.Weekdays CreateSchedule.DaysOfMonth
       CreateSchedule.WeekdayOfMonth CreateSchedule.action
       CreateChargeSchedule.Every CreateChargeSchedule.Period
       CreateChargeSchedule.StartDate CreateChargeSchedule.EndDate
       CreateChargeSchedule.Weekdays CreateChargeSchedule.DaysOfMonth
       CreateChargeSchedule.WeekdayOfMonth CreateChargeSchedule.Customer
       CreateChargeSchedule.Amount CreateChargeSchedule.Currency
       CreateChargeSchedule.Card CreateChargeSchedule.Description].
  destruct (nonEmpty start); [destruct (gotime.Parse start) as [e1 | d1] |];
    try reflexivity;
    (destruct (nonEmpty finish); [destruct (gotime.Parse finish) as [e2 | d2] |];
     try reflexivity);
    rewrite encode_charge_param;
    cbn [CreateChargeSchedule.setStartDate CreateChargeSchedule.setEndDate
         CreateChargeSchedule.param_Period CreateChargeSchedule.param_Every
         CreateChargeSchedule.param_StartDate CreateChargeSchedule.param_EndDate
         CreateChargeSchedule.param_On CreateChargeSchedule.param_Charge];
    destruct (String.eqb period "week"), (String.eqb period "month"),
      (notNil d), (nonEmpty s); reflexivity.
Qed.

Lemma transfer_written (req : CreateTransferSchedule.t) :
  CreateTransferSchedule.document req = written (CreateSchedule.Transfer req).
Proof.
  destruct req as [ev period start finish w d s recipient amount pct].
  unfold CreateTransferSchedule.document, CreateTransferSchedule.params, written,
    parsedStart, parsedEnd, refused, selected, every, actionMembers, transferOf.
  cbn [CreateSchedule.StartDate CreateSchedule.EndDate CreateSchedule.Period
       CreateSchedule.Weekdays CreateSchedule.DaysOfMonth
       CreateSchedule.WeekdayOfMonth CreateSchedule.action
       CreateTransferSchedule.Every CreateTransferSchedule.Period
       CreateTransferSchedule.StartDate CreateTransferSchedule.EndDate
       CreateTransferSchedule.Weekdays CreateTransferSchedule.DaysOfMonth
       CreateTransferSchedule.WeekdayOfMonth CreateTransferSchedule.Recipient
       CreateTransferSchedule.Amount CreateTransferSchedule.PercentageOfBalance].
  destruct (nonEmpty start); [destruct (gotime.Parse start) as [e1 | d1] |];
    try reflexivity;
    (destruct (nonEmpty finish); [destruct (gotime.Parse finish) as [e2 | d2] |];
     try reflexivity);
    rewrite encode_transfer_param;
    cbn [CreateTransferSchedule.setStartDate CreateTransferSchedule.setEndDate
         CreateTransferSchedule.param_Period CreateTransferSchedule.param_Every
         CreateTransferSchedule.param_StartDate
         CreateTransferSchedule.param_EndDate
         CreateTransferSchedule.param_On CreateTransferSchedule.param_Transfer];
    destruct (String.eqb period "week"), (String.eqb period "month"),
      (notNil d), (nonEmpty s);
    cbn [CreateTransferSchedule.setOn CreateTransferSchedule.setStartDate
         CreateTransferSchedule.setEndDate CreateTransferSchedule.param_Transfer
         CreateTransferSchedule.transfer_PercentageOfBalance
         CreateTransferSchedule.param_On CreateTransferSchedule.param_Every
         CreateTransferSchedule.param_Period
         CreateTransferSchedule.param_StartDate
         CreateTransferSchedule.param_EndDate andb];
    destruct (unsupported pct); reflexivity.
Qed.

(** The document of a request is the one written out above. *)
Lemma document_written (r : CreateSchedule.t) :
  CreateSchedule.document r = written r.
Proof.
  destruct r as [c | x]; [apply charge_written | apply transfer_written].
Qed.

(** [MarshalJSON] returns the bytes of the document, or [nil] and the
    error. *)
Lemma MarshalJSON_document (r : CreateSchedule.t) :
  CreateSchedule.MarshalJSON r
  = match CreateSchedule.document r with
    | inl err => (None, Some err)
    | inr j => (Some (gojson.render j), None)
    end.
Proof.
  destruct r as [c | x]; cbn [CreateSchedule.MarshalJSON CreateSchedule.document].
  - unfold CreateChargeSchedule.MarshalJSON, CreateChargeSchedule.document,
      gojson.Marshal.
    destruct (CreateChargeSchedule.params c); reflexivity.
  - unfold CreateTransferSchedule.MarshalJSON, CreateTransferSchedule.document,
      gojson.Marshal.
    destruct (CreateTransferSchedule.params x); reflexivity.
Qed.

(** A request that encodes has dates that parse (where set) and a
    percentage JSON can hold, and its document is the one written out. *)
Lemma document_ok (r : CreateSchedule.t) (j : gojson.tree) :
  CreateSchedule.document r = inr j ->
  exists start finish,
    parsedStart (CreateSchedule.StartDate r) = inr start
    /\ parsedEnd (CreateSchedule.EndDate r) = inr finish
    /\ refused r = None
    /\ j = gojson.JObject
             (cadenceMembers (every r) (CreateSchedule.Period r) start finish
                (selected (CreateSchedule.Period r) (CreateSchedule.Weekdays r)
                   (CreateSchedule.DaysOfMonth r)
                   (CreateSchedule.WeekdayOfMonth r))
              ++ [(CreateSchedule.action r, gojson.JObject (actionMembers r))]).
Proof.
  rewrite document_written. unfold written.
  destruct (parsedStart _) as [e1 | start]; [discriminate |].
  destruct (parsedEnd _) as [e2 | finish]; [discriminate |].
  destruct (refused r) as [f |]; [discriminate |].
  intros H. injection H as <-. now exists start, finish.
Qed.

Section Members.

Variables (r : CreateSchedule.t) (ev : Z) (period : string).
Variables (start : option omise.Date) (finish : omise.Date).
Variables (selector : option (list (string * gojson.tree))) (a : gojson.tree).

Let doc : gojson.tree :=
  gojson.JObject
    (cadenceMembers ev period start finish selector
     ++ [(CreateSchedule.action r, a)]).

Lemma member_on : gojson.member "on" doc = option_map gojson.JObject selector.
Proof. destruct r, start, selector; reflexivity. Qed.

Lemma member_start_date :
  gojson.member "start_date" doc
  = option_map (fun d => gojson.JString (omise.String d)) start.
Proof. destruct r, start, selector; reflexivity. Qed.

Lemma member_end_date :
  gojson.member "end_date" doc = Some (gojson.JString (omise.String finish)).
Proof. destruct r, start, selector; reflexivity. Qed.

Lemma member_action : gojson.member (CreateSchedule.action r) doc = Some a.
Proof. destruct r, start, selector; reflexivity. Qed.

Lemma keys_document :
  gojson.keys doc
  = (["every"; "period"]
     ++ keyIf (match start with Some _ => true | None => false end) "start_date"
     ++ ["end_date"]
     ++ keyIf (match selector with Some _ => true | None => false end) "on"
     ++ [CreateSchedule.action r])%list.
Proof. destruct r, start, selector; reflexivity. Qed.

End Members.

Lemma parsedStart_set (s : string) (start : option omise.Date) :
  parsedStart s = inr start ->
  match start with Some _ => true | None => false end = nonEmpty s.
Proof.
  unfold parsedStart. destruct (nonEmpty s).
  - destruct (gotime.Parse s); [discriminate |]. now intros [= <-].
  - now intros [= <-].
Qed.

Lemma selected_set (r : CreateSchedule.t) :
  match selected (CreateSchedule.Period r) (CreateSchedule.Weekdays r)
          (CreateSchedule.DaysOfMonth r) (CreateSchedule.WeekdayOfMonth r)
  with Some _ => true | None => false end = hasSelector r.
Proof.
  unfold selected, hasSelector.
  destruct (String.eqb _ "week"), (String.eqb _ "month"), (notNil _), (nonEmpty _);
    reflexivity.
Qed.

(** ** The bytes around one member *)

Lemma string_app_assoc (a b c : string) : (a ++ b) ++ c = a ++ b ++ c.
Proof. induction a as [| ch a IH]; simpl; [reflexivity | now rewrite IH]. Qed.

Lemma string_app_nil_r (a : string) : a ++ "" = a.
Proof. induction a as [| ch a IH]; simpl; [reflexivity | now rewrite IH]. Qed.

Lemma render_object (l : list (string * gojson.tree)) :
  gojson.render (gojson.JObject l) = "{" ++ renderMembers l ++ "}".
Proof. reflexivity. Qed.

Lemma renderMembers_infix (l1 l2 : list (string * gojson.tree)) (k : string)
    (x : gojson.tree) :
  exists pre post,
    renderMembers (l1 ++ (k, x) :: l2)
    = pre ++ (gojson.quote k ++ ":" ++ gojson.render x) ++ post.
Proof.
  induction l1 as [| [k1 x1] l1 IH].
  - exists "". destruct l2 as [| m l2].
    + exists "". cbn [app renderMembers].
      rewrite string_app_nil_r. reflexivity.
    + exists ("," ++ renderMembers (m :: l2)).
      cbn [app]. change (renderMembers ((k, x) :: m :: l2))
        with (gojson.quote k ++ ":" ++ gojson.render x ++ ","
              ++ renderMembers (m :: l2)).
      rewrite !string_app_assoc. reflexivity.
  - destruct IH as (pre & post & IH).
    exists (gojson.quote k1 ++ ":" ++ gojson.render x1 ++ "," ++ pre), post.
    assert (N : exists m rest, (l1 ++ (k, x) :: l2)%list = m :: rest).
    { destruct l1; simpl; eauto. }
    destruct N as (m & rest & N).
    cbn [app]. rewrite N in *.
    change (renderMembers ((k1, x1) :: m :: rest))
      with (gojson.quote k1 ++ ":" ++ gojson.render x1 ++ ","
            ++ renderMembers (m :: rest)).
    rewrite IH. now rewrite !string_app_assoc.
Qed.

(** ** When encoding fails *)

Lemma written_fails (r : CreateSchedule.t) :
  (exists e, written r = inl e)
  <-> dateFails (CreateSchedule.StartDate r)
      \/ dateFails (CreateSchedule.EndDate r)
      \/ badPercentage r.
Proof.
  unfold written, parsedStart, parsedEnd, gotime.Parse, dateFails.
  destruct (nonEmpty (CreateSchedule.StartDate r)) eqn:Ns;
    [apply nonEmpty_true in Ns | apply nonEmpty_false in Ns];
    (destruct (nonEmpty (CreateSchedule.EndDate r)) eqn:Ne;
     [apply nonEmpty_true in Ne | apply nonEmpty_false in Ne]);
    destruct (gotime.parseDate (CreateSchedule.StartDate r)) eqn:Ps;
    destruct (gotime.parseDate (CreateSchedule.EndDate r)) eqn:Pe;
    destruct r as [c | x]; cbn [refused badPercentage];
    try destruct (unsupported (CreateTransferSchedule.PercentageOfBalance x));
    (split;
     [ intros [e H]; try discriminate H; intuition congruence
     | intros H; try (eexists; reflexivity); exfalso; intuition congruence ]).
Qed.

Lemma keys_stringMember (k s : string) :
  map fst (stringMember k s) = keyIf (nonEmpty s) k.
Proof. unfold stringMember, keyIf. destruct (nonEmpty s); reflexivity. Qed.

(** ** The claims *)

(** The bytes [MarshalJSON] returns are those of the request's
    document. *)
Lemma MarshalJSON_bytes (r : CreateSchedule.t) (b : bytes) :
  CreateSchedule.MarshalJSON r = (Some b, None) ->
  exists j, CreateSchedule.document r = inr j /\ b = gojson.render j.
Proof.
  rewrite MarshalJSON_document.
  destruct (CreateSchedule.document r) as [e | j]; [discriminate |].
  intros [= <-]. now exists j.
Qed.

Ltac opened r b Hb start finish Hs Hf :=
  let j := fresh "j" in
  let Hj := fresh "Hj" in
  destruct (MarshalJSON_bytes r b Hb) as (j & Hj & ->);
  destruct (document_ok r j Hj) as (start & finish & Hs & Hf & _ & ->).

(** C1. For a request with period "month" whose days-of-month list holds
    days and whose weekday-of-month string is set, the [on] object that
    [MarshalJSON] writes holds the key [days_of_month] with the days and
    no [weekday_of_month]: it is exactly [{"days_of_month": days}].  The
    weekday-of-month string is left out even when the list is non-nil
    but empty. *)
Theorem C1_days_of_month_take_precedence
    (r : CreateSchedule.t) (days : list Z) (b : bytes) :
  CreateSchedule.Period r = "month" ->
  CreateSchedule.DaysOfMonth r = Some days ->
  CreateSchedule.WeekdayOfMonth r <> "" ->
  CreateSchedule.MarshalJSON r = (Some b, None) ->
  exists j on,
    b = gojson.render j
    /\ gojson.member "on" j = Some on
    /\ gojson.member "weekday_of_month" on = None
    /\ (days <> [] ->
        on = gojson.JObject [("days_of_month", gojson.JArray (map gojson.JInt days))]
        /\ gojson.member "days_of_month" on
           = Some (gojson.JArray (map gojson.JInt days))).
Proof.
  intros Hp Hd Hw Hb. opened r b Hb start finish Hs Hf.
  eexists. rewrite member_on. unfold selected. rewrite Hp, Hd.
  cbn [String.eqb Ascii.eqb Bool.eqb andb notNil option_map].
  destruct days as [| d ds].
  - exists (gojson.JObject []).
    split; [reflexivity |]. split; [reflexivity |]. split; [reflexivity |].
    intros Hne. now contradiction Hne.
  - eexists. split; [reflexivity |]. split; [reflexivity |].
    split; [reflexivity |]. intros _. split; reflexivity.
Qed.

Lemma C1_witness :
  exists j on,
    wire "{'every':3,'period':'month','start_date':'2017-05-15','end_date':'2018-05-15','on':{'days_of_month':[1,15]},'charge':{'customer':'customer_id','amount':100000}}"
    = gojson.render j
    /\ gojson.member "on" j = Some on
    /\ gojson.member "weekday_of_month" on = None
    /\ ([1; 15] <> [] ->
        on = gojson.JObject
               [("days_of_month", gojson.JArray (map gojson.JInt [1; 15]))]
        /\ gojson.member "days_of_month" on
           = Some (gojson.JArray (map gojson.JInt [1; 15]))).
Proof.
  apply (C1_days_of_month_take_precedence chargeMonthBoth [1; 15]).
  - reflexivity.
  - reflexivity.
  - discriminate.
  - vm_compute. reflexivity.
Defined.

(** C2. [MarshalJSON] returns an error exactly when a start or end date
    that is set fails to parse or, for a transfer request, the percentage
    of balance is NaN or infinite; for a charge request the dates are the
    only cause.  With an error the returned bytes are [nil]; without one
    there are bytes. *)
Theorem C2_errors_are_dates_or_percentage (r : CreateSchedule.t) :
  (snd (CreateSchedule.MarshalJSON r) <> None
   <-> dateFails (CreateSchedule.StartDate r)
       \/ dateFails (CreateSchedule.EndDate r)
       \/ badPercentage r)
  /\ (forall c, r = CreateSchedule.Charge c ->
        (snd (CreateSchedule.MarshalJSON r) <> None
         <-> dateFails (CreateSchedule.StartDate r)
             \/ dateFails (CreateSchedule.EndDate r)))
  /\ (snd (CreateSchedule.MarshalJSON r) <> None ->
      fst (CreateSchedule.MarshalJSON r) = None)
  /\ (snd (CreateSchedule.MarshalJSON r) = None ->
      exists b, fst (CreateSchedule.MarshalJSON r) = Some b).
Proof.
  assert (F : snd (CreateSchedule.MarshalJSON r) <> None
              <-> dateFails (CreateSchedule.StartDate r)
                  \/ dateFails (CreateSchedule.EndDate r)
                  \/ badPercentage r).
  { rewrite <- written_fails, <- document_written, MarshalJSON_document.
    destruct (CreateSchedule.document r) as [e | j]; cbn [snd]; split.
    - intros _. now exists e.
    - intros _. discriminate.
    - intros H. now contradiction H.
    - intros [e H]. discriminate H. }
  split; [exact F |]. split; [| split].
  - intros c ->. rewrite F. cbn [badPercentage]. tauto.
  - rewrite MarshalJSON_document.
    destruct (CreateSchedule.document r); cbn [fst snd];
      [reflexivity | intros H; now contradiction H].
  - rewrite MarshalJSON_document.
    destruct (CreateSchedule.document r); cbn [fst snd];
      [discriminate | intros _; eexists; reflexivity].
Qed.

(** C2, as stated, fails on a transfer schedule whose percentage of
    balance is NaN: both dates parse, and [MarshalJSON] returns
    [nil] with an [UnsupportedValueError]. *)
Lemma C2_nan_percentage_is_refused :
  CreateSchedule.MarshalJSON transferNaN
  = (None, Some (UnsupportedValueError S754_nan))
  /\ gotime.parseDate (CreateSchedule.StartDate transferNaN)
     = Some (gotime.mkTime 2017 5 15)
  /\ gotime.parseDate (CreateSchedule.EndDate transferNaN)
     = Some (gotime.mkTime 2018 5 15)
  /\ ~ (forall r,
          snd (CreateSchedule.MarshalJSON r) <> None
          <-> dateFails (CreateSchedule.StartDate r)
              \/ dateFails (CreateSchedule.EndDate r)).
Proof.
  split; [vm_compute; reflexivity |].
  split; [vm_compute; reflexivity |].
  split; [vm_compute; reflexivity |].
  intros H. destruct (H transferNaN) as [H1 _].
  assert (E : snd (CreateSchedule.MarshalJSON transferNaN) <> None)
    by (vm_compute; discriminate).
  destruct (H1 E) as [[_ P] | [_ P]]; vm_compute in P; discriminate P.
Qed.

(** C3. The nested action object that [MarshalJSON] writes leaves out
    [currency], [card] and [description] exactly when they are empty, and
    a transfer's [amount] and [percentage_of_balance] exactly when they
    are zero; [customer] and [amount] of a charge and [recipient] of a
    transfer are always written, empty or zero as they may be. *)
Theorem C3_action_members (r : CreateSchedule.t) (b : bytes) :
  CreateSchedule.MarshalJSON r = (Some b, None) ->
  exists j a,
    b = gojson.render j
    /\ gojson.member (CreateSchedule.action r) j = Some a
    /\ gojson.keys a
       = match r with
         | CreateSchedule.Charge c =>
             (["customer"; "amount"]
              ++ keyIf (nonEmpty (CreateChargeSchedule.Currency c)) "currency"
              ++ keyIf (nonEmpty (CreateChargeSchedule.Card c)) "card"
              ++ keyIf (nonEmpty (CreateChargeSchedule.Description c))
                   "description")%list
         | CreateSchedule.Transfer x =>
             (["recipient"]
              ++ keyIf (negb (CreateTransferSchedule.Amount x =? 0)) "amount"
              ++ keyIf (negb (isZero (CreateTransferSchedule.PercentageOfBalance x)))
                   "percentage_of_balance")%list
         end
    /\ match r with
       | CreateSchedule.Charge c =>
           gojson.member "customer" a
           = Some (gojson.JString (CreateChargeSchedule.Customer c))
           /\ gojson.member "amount" a
              = Some (gojson.JInt (CreateChargeSchedule.Amount c))
       | CreateSchedule.Transfer x =>
           gojson.member "recipient" a
           = Some (gojson.JString (CreateTransferSchedule.Recipient x))
       end.
Proof.
  intros Hb. opened r b Hb start finish Hs Hf.
  eexists. rewrite member_action. eexists.
  split; [reflexivity |]. split; [reflexivity |].
  destruct r as [c | x]; cbn [actionMembers gojson.keys].
  - unfold chargeMembers, chargeOf.
    cbn [CreateChargeSchedule.charge_Customer CreateChargeSchedule.charge_Amount
         CreateChargeSchedule.charge_Currency CreateChargeSchedule.charge_Card
         CreateChargeSchedule.charge_Description].
    rewrite !map_app, !keys_stringMember. repeat split.
  - unfold transferMembers, transferOf, keyIf.
    cbn [CreateTransferSchedule.transfer_Recipient
         CreateTransferSchedule.transfer_Amount
         CreateTransferSchedule.transfer_PercentageOfBalance].
    destruct (CreateTransferSchedule.Amount x =? 0),
      (isZero (CreateTransferSchedule.PercentageOfBalance x)); repeat split.
Qed.

Lemma C3_witness :
  exists j a,
    wire "{'every':1,'period':'day','end_date':'2018-05-15','charge':{'customer':'','amount':0}}"
    = gojson.render j
    /\ gojson.member "charge" j = Some a
    /\ gojson.keys a = ["customer"; "amount"]
    /\ gojson.member "customer" a = Some (gojson.JString "")
       /\ gojson.member "amount" a = Some (gojson.JInt 0).
Proof.
  apply (C3_action_members chargeBare). vm_compute. reflexivity.
Defined.

(** C3, as stated, fails on a charge schedule with no customer and
    amount 0: both zero-valued fields are in the [charge] object. *)
Lemma C3_empty_customer_is_written :
  CreateSchedule.MarshalJSON chargeBare
  = (Some (wire "{'every':1,'period':'day','end_date':'2018-05-15','charge':{'customer':'','amount':0}}"),
     None)
  /\ CreateSchedule.document chargeBare
     = inr (gojson.JObject
              [ ("every", gojson.JInt 1); ("period", gojson.JString "day");
                ("end_date", gojson.JString "2018-05-15");
                ("charge", gojson.JObject
                             [ ("customer", gojson.JString "");
                               ("amount", gojson.JInt 0) ]) ])
  /\ ~ (forall c j a,
          CreateChargeSchedule.document c = inr j ->
          gojson.member "charge" j = Some a ->
          (CreateChargeSchedule.Customer c = "" ->
           gojson.member "customer" a = None)
          /\ (CreateChargeSchedule.Amount c = 0 ->
              gojson.member "amount" a = None)).
Proof.
  split; [vm_compute; reflexivity |].
  split; [vm_compute; reflexivity |].
  intros H.
  destruct (H (CreateChargeSchedule.mk 1 "day" "" "2018-05-15" None None ""
                 "" 0 "" "" "")
              _ _ ltac:(vm_compute; reflexivity) eq_refl) as [H1 _].
  specialize (H1 eq_refl). discriminate H1.
Qed.

(** C4. With period "week" the output of [MarshalJSON] always has an
    [on] object; it holds the key [weekdays] with the given list when the
    list holds weekdays, and is the empty object when the list is empty
    or nil. *)
Theorem C4_week_attaches_weekdays (r : CreateSchedule.t) (b : bytes) :
  CreateSchedule.Period r = "week" ->
  CreateSchedule.MarshalJSON r = (Some b, None) ->
  exists j on,
    b = gojson.render j
    /\ gojson.member "on" j = Some on
    /\ (forall w ws,
          CreateSchedule.Weekdays r = Some (w :: ws) ->
          on = gojson.JObject
                 [("weekdays", gojson.JArray (map gojson.JString (w :: ws)))])
    /\ (CreateSchedule.Weekdays r = Some [] \/ CreateSchedule.Weekdays r = None ->
        on = gojson.JObject []).
Proof.
  intros Hp Hb. opened r b Hb start finish Hs Hf.
  eexists. rewrite member_on. unfold selected. rewrite Hp.
  cbn [String.eqb Ascii.eqb Bool.eqb option_map].
  eexists. split; [reflexivity |]. split; [reflexivity |]. split.
  - intros w ws ->. reflexivity.
  - intros [-> | ->]; reflexivity.
Qed.

Lemma C4_witness :
  exists j on,
    wire "{'every':3,'period':'week','start_date':'2017-05-15','end_date':'2018-05-15','on':{},'charge':{'customer':'customer_id','amount':100000}}"
    = gojson.render j
    /\ gojson.member "on" j = Some on
    /\ (forall w ws,
          Some ([] : list schedule.Weekday) = Some (w :: ws) ->
          on = gojson.JObject
                 [("weekdays", gojson.JArray (map gojson.JString (w :: ws)))])
    /\ (Some ([] : list schedule.Weekday) = Some []
        \/ Some ([] : list schedule.Weekday) = None ->
        on = gojson.JObject []).
Proof.
  apply (C4_week_attaches_weekdays chargeWeekNoDays).
  - reflexivity.
  - vm_compute. reflexivity.
Defined.

(** C4, as stated, fails on a weekly charge schedule with an empty
    weekday list: the [on] object is there but holds no [weekdays]
    key. *)
Lemma C4_empty_weekdays_are_left_out :
  CreateSchedule.MarshalJSON chargeWeekNoDays
  = (Some (wire "{'every':3,'period':'week','start_date':'2017-05-15','end_date':'2018-05-15','on':{},'charge':{'customer':'customer_id','amount':100000}}"),
     None)
  /\ (exists j on,
        CreateSchedule.document chargeWeekNoDays = inr j
        /\ gojson.member "on" j = Some on
        /\ gojson.member "weekdays" on = None)
  /\ ~ (forall r j l,
          CreateSchedule.Period r = "week" ->
          CreateSchedule.Weekdays r = Some l ->
          CreateSchedule.document r = inr j ->
          exists on,
            gojson.member "on" j = Some on
            /\ gojson.member "weekdays" on
               = Some (gojson.JArray (map gojson.JString l))).
Proof.
  split; [vm_compute; reflexivity |].
  split.
  - eexists. eexists. split; [vm_compute; reflexivity |].
    split; reflexivity.
  - intros H.
    destruct (H chargeWeekNoDays _ [] eq_refl eq_refl
                ltac:(vm_compute; reflexivity)) as (on & Hon & Hw).
    injection Hon as <-. discriminate Hw.
Qed.

(** C5. For a request with period "day" the object [MarshalJSON]
    writes has no [on] key, whatever the weekdays, days-of-month and
    weekday-of-month fields hold. *)
Theorem C5_day_has_no_selector (r : CreateSchedule.t) (b : bytes) :
  CreateSchedule.Period r = "day" ->
  CreateSchedule.MarshalJSON r = (Some b, None) ->
  exists j,
    b = gojson.render j
    /\ gojson.member "on" j = None
    /\ ~ In "on" (gojson.keys j).
Proof.
  intros Hp Hb. opened r b Hb start finish Hs Hf.
  assert (S : selected (CreateSchedule.Period r) (CreateSchedule.Weekdays r)
                (CreateSchedule.DaysOfMonth r) (CreateSchedule.WeekdayOfMonth r)
              = None).
  { unfold selected. rewrite Hp. reflexivity. }
  eexists. split; [reflexivity |]. split.
  - rewrite member_on, S. reflexivity.
  - rewrite keys_document, S.
    destruct r, start; cbn; intros H;
      repeat (destruct H as [H | H]; [discriminate H |]); exact H.
Qed.

Lemma C5_witness :
  exists j,
    wire "{'every':3,'period':'day','start_date':'2017-05-15','end_date':'2018-05-15','charge':{'customer':'customer_id','amount':100000}}"
    = gojson.render j
    /\ gojson.member "on" j = None
    /\ ~ In "on" (gojson.keys j).
Proof.
  apply (C5_day_has_no_selector chargeEachDay).
  - reflexivity.
  - vm_compute. reflexivity.
Defined.

(** C6. When the start date string is empty the output of [MarshalJSON]
    has no [start_date] key at all; the [end_date] key is always there,
    and when the end date string is empty it holds the zero date,
    ["0001-01-01"]. *)
Theorem C6_start_date_omitted_end_date_kept (r : CreateSchedule.t) (b : bytes) :
  CreateSchedule.MarshalJSON r = (Some b, None) ->
  exists j,
    b = gojson.render j
    /\ (CreateSchedule.StartDate r = "" ->
        gojson.member "start_date" j = None /\ ~ In "start_date" (gojson.keys j))
    /\ (exists d, gojson.member "end_date" j = Some (gojson.JString d))
    /\ In "end_date" (gojson.keys j)
    /\ (CreateSchedule.EndDate r = "" ->
        gojson.member "end_date" j = Some (gojson.JString "0001-01-01")).
Proof.
  intros Hb. opened r b Hb start finish Hs Hf.
  eexists. split; [reflexivity |].
  rewrite member_start_date, member_end_date, keys_document.
  split; [| split; [| split]].
  - intros E. unfold parsedStart in Hs. rewrite E in Hs.
    cbn [nonEmpty String.eqb negb] in Hs. injection Hs as <-.
    split; [reflexivity |].
    destruct r, (selected _ _ _ _); cbn; intros H;
      repeat (destruct H as [H | H]; [discriminate H |]); exact H.
  - eexists; reflexivity.
  - destruct start; cbn; tauto.
  - intros E. unfold parsedEnd in Hf. rewrite E in Hf.
    cbn [nonEmpty String.eqb negb] in Hf. injection Hf as <-. reflexivity.
Qed.

Lemma C6_witness :
  exists j,
    wire "{'every':3,'period':'day','end_date':'0001-01-01','charge':{'customer':'customer_id','amount':100000}}"
    = gojson.render j
    /\ (CreateSchedule.StartDate chargeNoDates = "" ->
        gojson.member "start_date" j = None /\ ~ In "start_date" (gojson.keys j))
    /\ (exists d, gojson.member "end_date" j = Some (gojson.JString d))
    /\ In "end_date" (gojson.keys j)
    /\ (CreateSchedule.EndDate chargeNoDates = "" ->
        gojson.member "end_date" j = Some (gojson.JString "0001-01-01")).
Proof.
  apply (C6_start_date_omitted_end_date_kept chargeNoDates).
  vm_compute. reflexivity.
Defined.

(** C8. The keys of the top-level object [MarshalJSON] writes come in
    the fixed order every, period, start_date (if the start date is set),
    end_date, on (if the switch attached a selector), then charge or
    transfer. *)
Theorem C8_top_level_key_order (r : CreateSchedule.t) (b : bytes) :
  CreateSchedule.MarshalJSON r = (Some b, None) ->
  exists j,
    b = gojson.render j
    /\ gojson.keys j
       = (["every"; "period"]
          ++ keyIf (nonEmpty (CreateSchedule.StartDate r)) "start_date"
          ++ ["end_date"]
          ++ keyIf (hasSelector r) "on"
          ++ [CreateSchedule.action r])%list.
Proof.
  intros Hb. opened r b Hb start finish Hs Hf.
  eexists. split; [reflexivity |].
  rewrite keys_document, (parsedStart_set _ _ Hs), selected_set. reflexivity.
Qed.

Lemma C8_witness :
  exists j,
    wire "{'every':3,'period':'month','start_date':'2017-05-15','end_date':'2018-05-15','on':{'days_of_month':[1,15]},'charge':{'customer':'customer_id','amount':100000}}"
    = gojson.render j
    /\ gojson.keys j
       = ["every"; "period"; "start_date"; "end_date"; "on"; "charge"].
Proof.
  apply (C8_top_level_key_order chargeMonthBoth). vm_compute. reflexivity.
Defined.

(** C9. Both create operations are POST /schedules with content type
    application/json; retrieve is GET and destroy is DELETE on
    /schedules/ followed by the schedule id, with no values and no
    content type. *)
Theorem C9_operation_descriptors :
  (forall r,
     internal.Method (CreateSchedule.Op r) = "POST"
     /\ internal.Path (CreateSchedule.Op r) = "/schedules"
     /\ internal.ContentType (CreateSchedule.Op r) = "application/json"
     /\ internal.endpoint (CreateSchedule.Op r) = internal.API)
  /\ (forall id,
        RetrieveSchedule.Op (RetrieveSchedule.mk id)
        = internal.mkOp internal.API "GET" ("/schedules/" ++ id) None "")
  /\ (forall id,
        DestroySchedule.Op (DestroySchedule.mk id)
        = internal.mkOp internal.API "DELETE" ("/schedules/" ++ id) None "").
Proof.
  split; [| split].
  - intros [c | x]; repeat split.
  - reflexivity.
  - reflexivity.
Qed.

(** C10. The month case of the switch asks whether the days-of-month
    list is non-nil, not whether it holds days: with period "month", a
    non-nil but empty list and a weekday-of-month string that is set,
    [MarshalJSON] writes the member ["on":{}] (the bytes hold that
    text); neither [days_of_month] nor [weekday_of_month] is written.
    With the list nil instead, the same request gets
    [weekday_of_month]. *)
Theorem C10_empty_days_shadow_weekday_of_month
    (r : CreateSchedule.t) (b : bytes) :
  CreateSchedule.Period r = "month" ->
  CreateSchedule.WeekdayOfMonth r <> "" ->
  CreateSchedule.MarshalJSON r = (Some b, None) ->
  exists j,
    b = gojson.render j
    /\ (CreateSchedule.DaysOfMonth r = Some [] ->
        gojson.member "on" j = Some (gojson.JObject [])
        /\ exists pre post, b = pre ++ wire "'on':{}" ++ post)
    /\ (CreateSchedule.DaysOfMonth r = None ->
        gojson.member "on" j
        = Some (gojson.JObject
                  [("weekday_of_month",
                    gojson.JString (CreateSchedule.WeekdayOfMonth r))])).
Proof.
  intros Hp Hw Hb. opened r b Hb start finish Hs Hf.
  eexists. split; [reflexivity |].
  rewrite member_on. unfold selected. rewrite Hp.
  apply nonEmpty_true in Hw. rewrite Hw.
  split; intros Hd; rewrite Hd;
    cbn [String.eqb Ascii.eqb Bool.eqb andb notNil option_map].
  - split; [reflexivity |].
    rewrite render_object. unfold cadenceMembers.
    cbn [onMembers sliceMember stringMember nonEmpty String.eqb negb app
         pointerMember].
    destruct (renderMembers_infix
                ([ ("every", gojson.JInt (every r));
                   ("period", gojson.JString "month") ]
                 ++ pointerMember "start_date"
                      (fun d => gojson.JString (omise.String d)) start
                 ++ [ ("end_date", gojson.JString (omise.String finish)) ])
                [ (CreateSchedule.action r, gojson.JObject (actionMembers r)) ]
                "on" (gojson.JObject [])) as (pre & post & E).
    exists ("{" ++ pre), (post ++ "}").
    rewrite <- !app_assoc in E. cbn [app] in E. cbn [app].
    rewrite <- app_assoc. cbn [app].
    rewrite E. rewrite !string_app_assoc. reflexivity.
  - unfold onMembers, stringMember. rewrite Hw. reflexivity.
Qed.

Lemma C10_witness :
  exists j,
    wire "{'every':3,'period':'month','start_date':'2017-05-15','end_date':'2018-05-15','on':{},'charge':{'customer':'customer_id','amount':100000}}"
    = gojson.render j
    /\ (CreateSchedule.DaysOfMonth chargeMonthNoDays = Some [] ->
        gojson.member "on" j = Some (gojson.JObject [])
        /\ exists pre post,
             wire "{'every':3,'period':'month','start_date':'2017-05-15','end_date':'2018-05-15','on':{},'charge':{'customer':'customer_id','amount':100000}}"
             = pre ++ wire "'on':{}" ++ post)
    /\ (CreateSchedule.DaysOfMonth chargeMonthNoDays = None ->
        gojson.member "on" j
        = Some (gojson.JObject
                  [("weekday_of_month",
                    gojson.JString
                      (CreateSchedule.WeekdayOfMonth chargeMonthNoDays))])).
Proof.
  apply (C10_empty_days_shadow_weekday_of_month chargeMonthNoDays).
  - reflexivity.
  - discriminate.
  - vm_compute. reflexivity.
Defined.

(** ** The repository's marshalling tests

    [TestCreateChargeScheduleMarshal] and
    [TestCreateTransferScheduleMarshal], case by case: the model returns
    the expected bytes. *)

Example test_charge_day :
  CreateChargeSchedule.MarshalJSON
    (CreateChargeSchedule.mk 3 schedule.PeriodDay "2017-05-15" "2018-05-15"
       None None "" "customer_id" 100000 "" "" "")
  = (Some (wire "{'every':3,'period':'day','start_date':'2017-05-15','end_date':'2018-05-15','charge':{'customer':'customer_id','amount':100000}}"),
     None).
Proof. vm_compute. reflexivity. Qed.

Example test_charge_week :
  CreateChargeSchedule.MarshalJSON
    (CreateChargeSchedule.mk 3 schedule.PeriodWeek "2017-05-15" "2018-05-15"
       (Some [schedule.Monday; schedule.Saturday]) None ""
       "customer_id" 100000 "" "" "")
  = (Some (wire "{'every':3,'period':'week','start_date':'2017-05-15','end_date':'2018-05-15','on':{'weekdays':['monday','saturday']},'charge':{'customer':'customer_id','amount':100000}}"),
     None).
Proof. vm_compute. reflexivity. Qed.

Example test_charge_days_of_month :
  CreateChargeSchedule.MarshalJSON
    (CreateChargeSchedule.mk 3 schedule.PeriodMonth "2017-05-15" "2018-05-15"
       None (Some [1; 15]) "" "customer_id" 100000 "" "" "")
  = (Some (wire "{'every':3,'period':'month','start_date':'2017-05-15','end_date':'2018-05-15','on':{'days_of_month':[1,15]},'charge':{'customer':'customer_id','amount':100000}}"),
     None).
Proof. vm_compute. reflexivity. Qed.

Example test_charge_weekday_of_month :
  CreateChargeSchedule.MarshalJSON
    (CreateChargeSchedule.mk 3 schedule.PeriodMonth "2017-05-15" "2018-05-15"
       None None "last_thursday" "customer_id" 100000 "" "" "")
  = (Some (wire "{'every':3,'period':'month','start_date':'2017-05-15','end_date':'2018-05-15','on':{'weekday_of_month':'last_thursday'},'charge':{'customer':'customer_id','amount':100000}}"),
     None).
Proof. vm_compute. reflexivity. Qed.

Example test_transfer_day :
  CreateTransferSchedule.MarshalJSON
    (CreateTransferSchedule.mk 3 schedule.PeriodDay "2017-05-15" "2018-05-15"
       None None "" "recipient_id" 100000 (S754_zero false))
  = (Some (wire "{'every':3,'period':'day','start_date':'2017-05-15','end_date':'2018-05-15','transfer':{'recipient':'recipient_id','amount':100000}}"),
     None).
Proof. vm_compute. reflexivity. Qed.

(** [20.35] is the [float64] [5728015776061850 * 2^-48]. *)
Example test_transfer_week :
  CreateTransferSchedule.MarshalJSON
    (CreateTransferSchedule.mk 3 schedule.PeriodWeek "2017-05-15" "2018-05-15"
       (Some [schedule.Monday; schedule.Saturday]) None ""
       "recipient_id" 0 (S754_finite false 5728015776061850 (-48)))
  = (Some (wire "{'every':3,'period':'week','start_date':'2017-05-15','end_date':'2018-05-15','on':{'weekdays':['monday','saturday']},'transfer':{'recipient':'recipient_id','percentage_of_balance':20.35}}"),
     None).
Proof. vm_compute. reflexivity. Qed.

Example test_transfer_days_of_month :
  CreateTransferSchedule.MarshalJSON
    (CreateTransferSchedule.mk 3 schedule.PeriodMonth "2017-05-15" "2018-05-15"
       None (Some [1; 15]) "" "recipient_id" 100000 (S754_zero false))
  = (Some (wire "{'every':3,'period':'month','start_date':'2017-05-15','end_date':'2018-05-15','on':{'days_of_month':[1,15]},'transfer':{'recipient':'recipient_id','amount':100000}}"),
     None).
Proof. vm_compute. reflexivity. Qed.

(** [50.55] is the [float64] [7114280036361830 * 2^-47]. *)
Example test_transfer_weekday_of_month :
  CreateTransferSchedule.MarshalJSON
    (CreateTransferSchedule.mk 3 schedule.PeriodMonth "2017-05-15" "2018-05-15"
       None None "last_thursday" "recipient_id" 0
       (S754_finite false 7114280036361830 (-47)))
  = (Some (wire "{'every':3,'period':'month','start_date':'2017-05-15','end_date':'2018-05-15','on':{'weekday_of_month':'last_thursday'},'transfer':{'recipient':'recipient_id','percentage_of_balance':50.55}}"),
     None).
Proof. vm_compute. reflexivity. Qed.

(** A start date that is no date: no bytes, a parse error. *)
Example test_not_a_date :
  CreateChargeSchedule.MarshalJSON
    (CreateChargeSchedule.mk 3 schedule.PeriodDay "not-a-date" "2018-05-15"
       None None "" "customer_id" 100000 "" "" "")
  = (None, Some (ParseError "2006-01-02" "not-a-date")).
Proof. vm_compute. reflexivity. Qed.

(** * Further properties *)

(** ** Dates are read and written back unchanged *)

Lemma isDigit_digitChars (c : ascii) :
  gotime.isDigit c = true -> In c digitChars.
Proof.
  destruct c as [[] [] [] [] [] [] [] []]; vm_compute; intros H;
    try discriminate H; tauto.
Qed.

Lemma two_digits_back (a b : ascii) :
  gotime.isDigit a = true -> gotime.isDigit b = true ->
  gotime.appendInt (gotime.digit a * 10 + gotime.digit b) 2
  = String a (String b "").
Proof.
  intros Ha Hb. apply isDigit_digitChars in Ha, Hb.
  assert (T : twoDigitsBack = true) by (vm_compute; reflexivity).
  unfold twoDigitsBack in T. rewrite forallb_forall in T.
  specialize (T a Ha). rewrite forallb_forall in T.
  specialize (T b Hb). now apply String.eqb_eq in T.
Qed.

Lemma four_digits_back (a b c d : ascii) :
  gotime.isDigit a = true -> gotime.isDigit b = true ->
  gotime.isDigit c = true -> gotime.isDigit d = true ->
  gotime.appendInt
    (((gotime.digit a * 10 + gotime.digit b) * 10 + gotime.digit c) * 10
     + gotime.digit d) 4
  = String a (String b (String c (String d ""))).
Proof.
  intros Ha Hb Hc Hd. apply isDigit_digitChars in Ha, Hb, Hc, Hd.
  assert (T : fourDigitsBack = true) by (vm_compute; reflexivity).
  unfold fourDigitsBack in T. rewrite forallb_forall in T.
  specialize (T a Ha). rewrite forallb_forall in T.
  specialize (T b Hb). rewrite forallb_forall in T.
  specialize (T c Hc). rewrite forallb_forall in T.
  specialize (T d Hd). now apply String.eqb_eq in T.
Qed.

Lemma getyear_some (s rest : string) (y : Z) :
  gotime.getyear s = Some (y, rest) ->
  exists a b c d,
    s = String a (String b (String c (String d rest)))
    /\ gotime.isDigit a = true /\ gotime.isDigit b = true
    /\ gotime.isDigit c = true /\ gotime.isDigit d = true
    /\ y = ((gotime.digit a * 10 + gotime.digit b) * 10 + gotime.digit c) * 10
           + gotime.digit d.
Proof.
  unfold gotime.getyear.
  destruct s as [| a [| b [| c [| d s]]]]; try discriminate.
  destruct (gotime.isDigit a) eqn:Ha, (gotime.isDigit b) eqn:Hb,
    (gotime.isDigit c) eqn:Hc, (gotime.isDigit d) eqn:Hd;
    cbn [andb]; try discriminate.
  intros [= <- <-]. exists a, b, c, d. repeat split; assumption.
Qed.

Lemma getnum_some (s rest : string) (n : Z) :
  gotime.getnum s = Some (n, rest) ->
  exists a b,
    s = String a (String b rest)
    /\ gotime.isDigit a = true /\ gotime.isDigit b = true
    /\ n = gotime.digit a * 10 + gotime.digit b.
Proof.
  unfold gotime.getnum.
  destruct s as [| a [| b s]]; try discriminate.
  destruct (gotime.isDigit a) eqn:Ha, (gotime.isDigit b) eqn:Hb;
    cbn [andb]; try discriminate.
  intros [= <- <-]. exists a, b. repeat split; assumption.
Qed.

Lemma skip_some (s rest : string) :
  gotime.skip s = Some rest -> s = String "-" rest.
Proof.
  unfold gotime.skip. destruct s as [| c s]; [discriminate |].
  destruct (Ascii.eqb_spec c "-"); [| discriminate].
  intros [= <-]. now subst c.
Qed.

(** What a string that parses looks like. *)
Lemma parseDate_some (s : string) (t : gotime.Time) :
  gotime.parseDate s = Some t ->
  exists a b c d m1 m2 d1 d2,
    s = String a (String b (String c (String d (String "-"
          (String m1 (String m2 (String "-" (String d1 (String d2 "")))))))))
    /\ gotime.isDigit a = true /\ gotime.isDigit b = true
    /\ gotime.isDigit c = true /\ gotime.isDigit d = true
    /\ gotime.isDigit m1 = true /\ gotime.isDigit m2 = true
    /\ gotime.isDigit d1 = true /\ gotime.isDigit d2 = true
    /\ t = gotime.mkTime
             (((gotime.digit a * 10 + gotime.digit b) * 10 + gotime.digit c) * 10
              + gotime.digit d)
             (gotime.digit m1 * 10 + gotime.digit m2)
             (gotime.digit d1 * 10 + gotime.digit d2)
    /\ 1 <= gotime.Month t <= 12
    /\ 1 <= gotime.Day t <= gotime.daysIn (gotime.Month t) (gotime.Year t).
Proof.
  unfold gotime.parseDate.
  destruct (gotime.getyear s) as [[y v1] |] eqn:Y; [| discriminate].
  destruct (gotime.skip v1) as [v2 |] eqn:S1; [| discriminate].
  destruct (gotime.getnum v2) as [[m v3] |] eqn:M; [| discriminate].
  destruct ((m <=? 0) || (12 <? m)) eqn:Rm; [discriminate |].
  destruct (gotime.skip v3) as [v4 |] eqn:S2; [| discriminate].
  destruct (gotime.getnum v4) as [[dd v5] |] eqn:D; [| discriminate].
  destruct v5; [| discriminate].
  destruct ((dd <? 1) || (gotime.daysIn m y <? dd)) eqn:Rd; [discriminate |].
  intros [= <-].
  apply getyear_some in Y. destruct Y as (a & b & c & d & -> & ? & ? & ? & ? & ->).
  apply skip_some in S1. subst v1.
  apply getnum_some in M. destruct M as (m1 & m2 & -> & ? & ? & ->).
  apply skip_some in S2. subst v3.
  apply getnum_some in D. destruct D as (d1 & d2 & -> & ? & ? & ->).
  exists a, b, c, d, m1, m2, d1, d2.
  apply orb_false_elim in Rm. destruct Rm as [Rm1 Rm2].
  apply orb_false_elim in Rd. destruct Rd as [Rd1 Rd2].
  cbn [gotime.Month gotime.Day gotime.Year].
  repeat split; try assumption; lia.
Qed.

(** [time.Parse] followed by [Format], both with the layout
    ["2006-01-02"], gives back the string. *)
Lemma Format_parseDate (s : string) (t : gotime.Time) :
  gotime.parseDate s = Some t -> gotime.Format t = s.
Proof.
  intros H. apply parseDate_some in H.
  destruct H as (a & b & c & d & m1 & m2 & d1 & d2 & -> & Ha & Hb & Hc & Hd
                 & Hm1 & Hm2 & Hd1 & Hd2 & -> & _).
  unfold gotime.Format. cbn [gotime.Year gotime.Month gotime.Day].
  rewrite (four_digits_back a b c d Ha Hb Hc Hd),
    (two_digits_back m1 m2 Hm1 Hm2), (two_digits_back d1 d2 Hd1 Hd2).
  reflexivity.
Qed.

Lemma parsedStart_written (s : string) (start : option omise.Date) :
  parsedStart s = inr start ->
  s <> "" ->
  exists d, start = Some d /\ omise.String d = s.
Proof.
  unfold parsedStart, gotime.Parse. intros H Hs.
  apply nonEmpty_true in Hs. rewrite Hs in H.
  destruct (gotime.parseDate s) as [d |] eqn:P; [| discriminate].
  injection H as <-. exists d. split; [reflexivity |].
  now apply Format_parseDate.
Qed.

Lemma parsedEnd_written (s : string) (finish : omise.Date) :
  parsedEnd s = inr finish ->
  s <> "" ->
  omise.String finish = s.
Proof.
  unfold parsedEnd, gotime.Parse. intros H Hs.
  apply nonEmpty_true in Hs. rewrite Hs in H.
  destruct (gotime.parseDate s) as [d |] eqn:P; [| discriminate].
  injection H as <-. now apply Format_parseDate.
Qed.

(** X1. A start date and an end date that are set reach the output as
    they were given: when [MarshalJSON] succeeds, the [start_date] and
    [end_date] members hold the very strings of the request, date-only,
    with no shift and no time of day. *)
Theorem X1_dates_pass_through (r : CreateSchedule.t) (b : bytes) :
  CreateSchedule.MarshalJSON r = (Some b, None) ->
  exists j,
    b = gojson.render j
    /\ (CreateSchedule.StartDate r <> "" ->
        gojson.member "start_date" j
        = Some (gojson.JString (CreateSchedule.StartDate r)))
    /\ (CreateSchedule.EndDate r <> "" ->
        gojson.member "end_date" j
        = Some (gojson.JString (CreateSchedule.EndDate r))).
Proof.
  intros Hb. opened r b Hb start finish Hs Hf.
  eexists. split; [reflexivity |].
  rewrite member_start_date, member_end_date. split.
  - intros Hne. destruct (parsedStart_written _ _ Hs Hne) as (d & -> & E).
    cbn [option_map]. now rewrite E.
  - intros Hne. now rewrite (parsedEnd_written _ _ Hf Hne).
Qed.

Lemma X1_witness :
  exists j,
    wire "{'every':3,'period':'day','start_date':'2017-05-15','end_date':'2018-05-15','charge':{'customer':'customer_id','amount':100000}}"
    = gojson.render j
    /\ (CreateSchedule.StartDate chargeEachDay <> "" ->
        gojson.member "start_date" j
        = Some (gojson.JString (CreateSchedule.StartDate chargeEachDay)))
    /\ (CreateSchedule.EndDate chargeEachDay <> "" ->
        gojson.member "end_date" j
        = Some (gojson.JString (CreateSchedule.EndDate chargeEachDay))).
Proof.
  apply (X1_dates_pass_through chargeEachDay). vm_compute. reflexivity.
Defined.

(** ** Which error is returned *)

Lemma dateFails_Parse (s : string) :
  dateFails s ->
  nonEmpty s = true /\ gotime.Parse s = inl (ParseError gotime.layout s).
Proof.
  intros [Hne P]. split; [now apply nonEmpty_true |].
  unfold gotime.Parse. now rewrite P.
Qed.

Lemma not_dateFails (s : string) :
  ~ dateFails s ->
  nonEmpty s = false \/ exists d, gotime.Parse s = inr d.
Proof.
  intros H. unfold dateFails in H. unfold gotime.Parse.
  destruct (nonEmpty s) eqn:N; [| now left].
  apply nonEmpty_true in N.
  destruct (gotime.parseDate s) as [d |] eqn:P.
  - right. now exists d.
  - exfalso. apply H. now split.
Qed.

(** The order of the checks in [MarshalJSON]. *)
Lemma first_failure (r : CreateSchedule.t) :
  (dateFails (CreateSchedule.StartDate r) ->
   CreateSchedule.MarshalJSON r
   = (None, Some (ParseError "2006-01-02" (CreateSchedule.StartDate r))))
  /\ (~ dateFails (CreateSchedule.StartDate r) ->
      dateFails (CreateSchedule.EndDate r) ->
      CreateSchedule.MarshalJSON r
      = (None, Some (ParseError "2006-01-02" (CreateSchedule.EndDate r))))
  /\ (~ dateFails (CreateSchedule.StartDate r) ->
      ~ dateFails (CreateSchedule.EndDate r) ->
      forall f, refused r = Some f ->
      CreateSchedule.MarshalJSON r = (None, Some (UnsupportedValueError f))).
Proof.
  rewrite MarshalJSON_document, document_written. unfold written.
  split; [| split].
  - intros H. apply dateFails_Parse in H. destruct H as [N P].
    unfold parsedStart. rewrite N, P. reflexivity.
  - intros H1 H2. apply dateFails_Parse in H2. destruct H2 as [N2 P2].
    unfold parsedStart, parsedEnd. rewrite N2, P2.
    destruct (not_dateFails _ H1) as [N1 | [d P1]].
    + rewrite N1. reflexivity.
    + rewrite P1.
      destruct (nonEmpty (CreateSchedule.StartDate r)); reflexivity.
  - intros H1 H2 f Hf. unfold parsedStart, parsedEnd. rewrite Hf.
    destruct (not_dateFails _ H1) as [N1 | [d1 P1]];
      destruct (not_dateFails _ H2) as [N2 | [d2 P2]];
      rewrite ?N1, ?N2, ?P1, ?P2;
      repeat match goal with
             | |- context [ if ?c then _ else _ ] => destruct c
             end; reflexivity.
Qed.

(** X2. The checks run in the order start date, end date, encoding, and
    the first failure is the error returned: a start date that does not
    parse gives the parse error carrying that string, whatever else is
    wrong; otherwise an end date that does not parse gives the parse
    error carrying the end date string; only when both dates pass can the
    error be the refusal of a NaN or infinite percentage. *)
Theorem X2_first_failure_is_returned (r : CreateSchedule.t) :
  (dateFails (CreateSchedule.StartDate r) ->
   CreateSchedule.MarshalJSON r
   = (None, Some (ParseError "2006-01-02" (CreateSchedule.StartDate r))))
  /\ (~ dateFails (CreateSchedule.StartDate r) ->
      dateFails (CreateSchedule.EndDate r) ->
      CreateSchedule.MarshalJSON r
      = (None, Some (ParseError "2006-01-02" (CreateSchedule.EndDate r))))
  /\ (~ dateFails (CreateSchedule.StartDate r) ->
      ~ dateFails (CreateSchedule.EndDate r) ->
      forall f, refused r = Some f ->
      CreateSchedule.MarshalJSON r = (None, Some (UnsupportedValueError f))).
Proof. exact (first_failure r). Qed.

(** X3. A date that is set must have exactly ten characters: a start or
    end date string of any other length makes [MarshalJSON] fail with no
    bytes. *)
Theorem X3_dates_have_ten_characters (r : CreateSchedule.t) :
  (CreateSchedule.StartDate r <> ""
   /\ String.length (CreateSchedule.StartDate r) <> 10%nat)
  \/ (CreateSchedule.EndDate r <> ""
      /\ String.length (CreateSchedule.EndDate r) <> 10%nat) ->
  fst (CreateSchedule.MarshalJSON r) = None
  /\ exists s, snd (CreateSchedule.MarshalJSON r)
               = Some (ParseError "2006-01-02" s).
Proof.
  assert (L : forall s, s <> "" -> String.length s <> 10%nat -> dateFails s).
  { intros s Hne Hl. split; [exact Hne |].
    destruct (gotime.parseDate s) as [t |] eqn:P; [| reflexivity].
    exfalso. apply Hl. apply parseDate_some in P.
    destruct P as (a & b & c & d & m1 & m2 & d1 & d2 & -> & _). reflexivity. }
  destruct (first_failure r) as (E1 & E2 & _).
  assert (D : dateFails (CreateSchedule.StartDate r)
              \/ ~ dateFails (CreateSchedule.StartDate r)).
  { unfold dateFails.
    destruct (gotime.parseDate (CreateSchedule.StartDate r));
      destruct (String.eqb_spec (CreateSchedule.StartDate r) "");
      [right | right | right | left]; intuition congruence. }
  intros [[Hne Hl] | [Hne Hl]].
  - rewrite (E1 (L _ Hne Hl)). split; [reflexivity | eexists; reflexivity].
  - destruct D as [D | D].
    + rewrite (E1 D). split; [reflexivity | eexists; reflexivity].
    + rewrite (E2 D (L _ Hne Hl)). split; [reflexivity | eexists; reflexivity].
Qed.

Lemma X3_witness :
  fst (CreateSchedule.MarshalJSON
         (CreateSchedule.Charge
            (CreateChargeSchedule.mk 3 "day" "2017-5-15" "2018-05-15" None None
               "" "customer_id" 100000 "" "" ""))) = None
  /\ exists s,
       snd (CreateSchedule.MarshalJSON
              (CreateSchedule.Charge
                 (CreateChargeSchedule.mk 3 "day" "2017-5-15" "2018-05-15" None
                    None "" "customer_id" 100000 "" "" "")))
       = Some (ParseError "2006-01-02" s).
Proof.
  apply X3_dates_have_ten_characters.
  left. split; [discriminate | vm_compute; discriminate].
Defined.

(** ** The selector fields the period does not use *)

Lemma written_withSelector (r : CreateSchedule.t) (w : schedule.Weekdays)
    (d : schedule.DaysOfMonth) (s : string) :
  selected (CreateSchedule.Period r) w d s
  = selected (CreateSchedule.Period r) (CreateSchedule.Weekdays r)
      (CreateSchedule.DaysOfMonth r) (CreateSchedule.WeekdayOfMonth r) ->
  CreateSchedule.MarshalJSON (withSelector r w d s) = CreateSchedule.MarshalJSON r.
Proof.
  intros E. rewrite !MarshalJSON_document, !document_written.
  assert (W : written (withSelector r w d s) = written r).
  { unfold written. destruct r as [c | x];
      cbn [withSelector CreateSchedule.StartDate CreateSchedule.EndDate
           CreateSchedule.Period CreateSchedule.Weekdays
           CreateSchedule.DaysOfMonth CreateSchedule.WeekdayOfMonth
           CreateSchedule.action refused every actionMembers chargeOf transferOf
           CreateChargeSchedule.Every CreateChargeSchedule.Period
           CreateChargeSchedule.StartDate CreateChargeSchedule.EndDate
           CreateChargeSchedule.Weekdays CreateChargeSchedule.DaysOfMonth
           CreateChargeSchedule.WeekdayOfMonth CreateChargeSchedule.Customer
           CreateChargeSchedule.Amount CreateChargeSchedule.Currency
           CreateChargeSchedule.Card CreateChargeSchedule.Description
           CreateTransferSchedule.Every CreateTransferSchedule.Period
           CreateTransferSchedule.StartDate CreateTransferSchedule.EndDate
           CreateTransferSchedule.Weekdays CreateTransferSchedule.DaysOfMonth
           CreateTransferSchedule.WeekdayOfMonth CreateTransferSchedule.Recipient
           CreateTransferSchedule.Amount
           CreateTransferSchedule.PercentageOfBalance] in *;
      rewrite E; reflexivity. }
  now rewrite W.
Qed.

(** X4. Selector fields that the period does not use have no effect on
    what [MarshalJSON] returns, bytes and error alike: with a period
    other than week and month none of the three matters; with week only
    the weekdays matter; with month the weekdays never matter, and the
    weekday-of-month string does not matter once the days-of-month list
    is non-nil. *)
Theorem X4_unused_selectors_have_no_effect
    (r : CreateSchedule.t) (w : schedule.Weekdays) (d : schedule.DaysOfMonth)
    (s : string) :
  (CreateSchedule.Period r <> "week" -> CreateSchedule.Period r <> "month" ->
   CreateSchedule.MarshalJSON (withSelector r w d s)
   = CreateSchedule.MarshalJSON r)
  /\ (CreateSchedule.Period r = "week" ->
      CreateSchedule.MarshalJSON (withSelector r (CreateSchedule.Weekdays r) d s)
      = CreateSchedule.MarshalJSON r)
  /\ (CreateSchedule.Period r = "month" ->
      CreateSchedule.MarshalJSON
        (withSelector r w (CreateSchedule.DaysOfMonth r)
           (CreateSchedule.WeekdayOfMonth r))
      = CreateSchedule.MarshalJSON r)
  /\ (CreateSchedule.Period r = "month" ->
      CreateSchedule.DaysOfMonth r <> None ->
      CreateSchedule.MarshalJSON (withSelector r w (CreateSchedule.DaysOfMonth r) s)
      = CreateSchedule.MarshalJSON r).
Proof.
  split; [| split; [| split]].
  - intros Hw Hm. apply written_withSelector. unfold selected.
    destruct (String.eqb_spec (CreateSchedule.Period r) "week"); [contradiction |].
    destruct (String.eqb_spec (CreateSchedule.Period r) "month"); [contradiction |].
    reflexivity.
  - intros Hp. apply written_withSelector. unfold selected. rewrite Hp.
    reflexivity.
  - intros Hp. apply written_withSelector. unfold selected. rewrite Hp.
    reflexivity.
  - intros Hp Hd. apply written_withSelector. unfold selected. rewrite Hp.
    destruct (CreateSchedule.DaysOfMonth r); [reflexivity | contradiction].
Qed.

(** ** The shape of the selector *)

(** X5. The [on] object never holds more than one key, and the key goes
    with the period: with week it is [weekdays] or nothing; with month it
    is [days_of_month], [weekday_of_month] or nothing; with any other
    period there is no [on] object.  In particular a weekday list given
    with period month is never written. *)
Theorem X5_selector_has_one_shape (r : CreateSchedule.t) (b : bytes) :
  CreateSchedule.MarshalJSON r = (Some b, None) ->
  exists j,
    b = gojson.render j
    /\ forall on,
         gojson.member "on" j = Some on ->
         (CreateSchedule.Period r = "week"
          /\ (gojson.keys on = [] \/ gojson.keys on = ["weekdays"]))
         \/ (CreateSchedule.Period r = "month"
             /\ (gojson.keys on = [] \/ gojson.keys on = ["days_of_month"]
                 \/ gojson.keys on = ["weekday_of_month"])).
Proof.
  intros Hb. opened r b Hb start finish Hs Hf.
  eexists. split; [reflexivity |].
  intros on. rewrite member_on. unfold selected.
  destruct (String.eqb_spec (CreateSchedule.Period r) "week") as [Ew | Nw].
  - intros [= <-]. left. split; [exact Ew |].
    destruct (CreateSchedule.Weekdays r) as [[| w ws] |]; cbn; tauto.
  - destruct (String.eqb_spec (CreateSchedule.Period r) "month") as [Em | Nm];
      cbn [andb]; [| discriminate].
    destruct (notNil (CreateSchedule.DaysOfMonth r)).
    + intros [= <-]. right. split; [exact Em |].
      destruct (CreateSchedule.DaysOfMonth r) as [[| d ds] |]; cbn; tauto.
    + destruct (nonEmpty (CreateSchedule.WeekdayOfMonth r)) eqn:N; [| discriminate].
      intros [= <-]. right. split; [exact Em |].
      unfold onMembers, stringMember. rewrite N. cbn. tauto.
Qed.

Lemma X5_witness :
  exists j,
    wire "{'every':3,'period':'month','start_date':'2017-05-15','end_date':'2018-05-15','on':{'days_of_month':[1,15]},'charge':{'customer':'customer_id','amount':100000}}"
    = gojson.render j
    /\ forall on,
         gojson.member "on" j = Some on ->
         (CreateSchedule.Period chargeMonthBoth = "week"
          /\ (gojson.keys on = [] \/ gojson.keys on = ["weekdays"]))
         \/ (CreateSchedule.Period chargeMonthBoth = "month"
             /\ (gojson.keys on = [] \/ gojson.keys on = ["days_of_month"]
                 \/ gojson.keys on = ["weekday_of_month"])).
Proof.
  apply (X5_selector_has_one_shape chargeMonthBoth). vm_compute. reflexivity.
Defined.

(** ** What is not checked *)

Lemma member_every_period (r : CreateSchedule.t) (ev : Z) (period : string)
    (start : option omise.Date) (finish : omise.Date)
    (selector : option (list (string * gojson.tree))) (a : gojson.tree) :
  gojson.member "every"
    (gojson.JObject (cadenceMembers ev period start finish selector
                     ++ [(CreateSchedule.action r, a)]))
  = Some (gojson.JInt ev)
  /\ gojson.member "period"
       (gojson.JObject (cadenceMembers ev period start finish selector
                        ++ [(CreateSchedule.action r, a)]))
     = Some (gojson.JString period).
Proof. split; reflexivity. Qed.

(** X6. The interval and the period are not validated: whatever their
    values (a zero or negative interval, an unknown or empty period),
    they never make [MarshalJSON] fail (it succeeds as soon as the dates
    pass and the percentage is a number), and they are written as given;
    a period other than week and month gets no [on] key. *)
Theorem X6_interval_and_period_are_copied (r : CreateSchedule.t) :
  (~ dateFails (CreateSchedule.StartDate r) ->
   ~ dateFails (CreateSchedule.EndDate r) ->
   ~ badPercentage r ->
   exists b, CreateSchedule.MarshalJSON r = (Some b, None))
  /\ (forall b,
        CreateSchedule.MarshalJSON r = (Some b, None) ->
        exists j,
          b = gojson.render j
          /\ gojson.member "every" j = Some (gojson.JInt (every r))
          /\ gojson.member "period" j
             = Some (gojson.JString (CreateSchedule.Period r))
          /\ (CreateSchedule.Period r <> "week" ->
              CreateSchedule.Period r <> "month" ->
              gojson.member "on" j = None)).
Proof.
  split.
  - intros H1 H2 H3. rewrite MarshalJSON_document.
    destruct (CreateSchedule.document r) as [e | j] eqn:D.
    + exfalso. rewrite document_written in D.
      assert (F : exists e', written r = inl e') by (now exists e).
      apply written_fails in F. tauto.
    + now exists (gojson.render j).
  - intros b Hb. opened r b Hb start finish Hs Hf.
    eexists. split; [reflexivity |].
    destruct (member_every_period r (every r) (CreateSchedule.Period r) start
                finish
                (selected (CreateSchedule.Period r) (CreateSchedule.Weekdays r)
                   (CreateSchedule.DaysOfMonth r)
                   (CreateSchedule.WeekdayOfMonth r))
                (gojson.JObject (actionMembers r))) as [E P].
    split; [exact E |]. split; [exact P |].
    intros Hw Hm. rewrite member_on. unfold selected.
    destruct (String.eqb_spec (CreateSchedule.Period r) "week"); [contradiction |].
    destruct (String.eqb_spec (CreateSchedule.Period r) "month"); [contradiction |].
    reflexivity.
Qed.

(** ** One action object, and the two encoders side by side *)

Lemma member_otherAction (r : CreateSchedule.t) (ev : Z) (period : string)
    (start : option omise.Date) (finish : omise.Date)
    (selector : option (list (string * gojson.tree))) (a : gojson.tree) :
  gojson.member (otherAction r)
    (gojson.JObject (cadenceMembers ev period start finish selector
                     ++ [(CreateSchedule.action r, a)]))
  = None.
Proof. destruct r, start, selector; reflexivity. Qed.

(** X7. Every request carries exactly one action object: a charge
    request writes a [charge] object and no [transfer] key, a transfer
    request a [transfer] object and no [charge] key, and the action
    object is the last member of the document. *)
Theorem X7_one_action_object (r : CreateSchedule.t) (b : bytes) :
  CreateSchedule.MarshalJSON r = (Some b, None) ->
  exists j a,
    b = gojson.render j
    /\ gojson.member (CreateSchedule.action r) j = Some (gojson.JObject a)
    /\ gojson.member (otherAction r) j = None
    /\ last (gojson.keys j) "" = CreateSchedule.action r.
Proof.
  intros Hb. opened r b Hb start finish Hs Hf.
  eexists. eexists. split; [reflexivity |].
  rewrite member_action, member_otherAction, keys_document.
  split; [reflexivity |]. split; [reflexivity |].
  destruct start, (selected _ _ _ _); reflexivity.
Qed.

Lemma X7_witness :
  exists j a,
    wire "{'every':3,'period':'day','start_date':'2017-05-15','end_date':'2018-05-15','charge':{'customer':'customer_id','amount':100000}}"
    = gojson.render j
    /\ gojson.member "charge" j = Some (gojson.JObject a)
    /\ gojson.member "transfer" j = None
    /\ last (gojson.keys j) "" = "charge".
Proof.
  apply (X7_one_action_object chargeEachDay). vm_compute. reflexivity.
Defined.

(** X8. The two encoders, written out twice in the source, treat the
    shared fields alike: for a charge and a transfer request with the
    same interval, period, dates and selector fields, every error of the
    charge request is the error of the transfer request, and when both
    encode, their documents have the same members in the same order up
    to the final action object. *)
Theorem X8_both_encoders_agree
    (c : CreateChargeSchedule.t) (x : CreateTransferSchedule.t) :
  sameCadence c x ->
  (forall e,
     CreateChargeSchedule.MarshalJSON c = (None, Some e) ->
     CreateTransferSchedule.MarshalJSON x = (None, Some e))
  /\ (forall bc bx,
        CreateChargeSchedule.MarshalJSON c = (Some bc, None) ->
        CreateTransferSchedule.MarshalJSON x = (Some bx, None) ->
        exists members ac ax,
          bc = gojson.render (gojson.JObject (members ++ [("charge", ac)]))
          /\ bx = gojson.render
                    (gojson.JObject (members ++ [("transfer", ax)]))).
Proof.
  intros (E1 & E2 & E3 & E4 & E5 & E6 & E7).
  change (CreateChargeSchedule.MarshalJSON c)
    with (CreateSchedule.MarshalJSON (CreateSchedule.Charge c)).
  change (CreateTransferSchedule.MarshalJSON x)
    with (CreateSchedule.MarshalJSON (CreateSchedule.Transfer x)).
  rewrite !MarshalJSON_document, !document_written. unfold written.
  cbn [CreateSchedule.StartDate CreateSchedule.EndDate CreateSchedule.Period
       CreateSchedule.Weekdays CreateSchedule.DaysOfMonth
       CreateSchedule.WeekdayOfMonth CreateSchedule.action refused every].
  rewrite E1, E2, E3, E4, E5, E6, E7.
  destruct (parsedStart (CreateTransferSchedule.StartDate x)) as [e1 | start].
  { split; [intros e H; exact H | intros bc bx H; discriminate H]. }
  destruct (parsedEnd (CreateTransferSchedule.EndDate x)) as [e2 | finish].
  { split; [intros e H; exact H | intros bc bx H; discriminate H]. }
  split; [intros e H; discriminate H |].
  intros bc bx [= <-].
  destruct (unsupported (CreateTransferSchedule.PercentageOfBalance x));
    [discriminate |].
  intros [= <-].
  exists (cadenceMembers (CreateTransferSchedule.Every x)
            (CreateTransferSchedule.Period x) start finish
            (selected (CreateTransferSchedule.Period x)
               (CreateTransferSchedule.Weekdays x)
               (CreateTransferSchedule.DaysOfMonth x)
               (CreateTransferSchedule.WeekdayOfMonth x))),
    (gojson.JObject (actionMembers (CreateSchedule.Charge c))),
    (gojson.JObject (actionMembers (CreateSchedule.Transfer x))).
  split; reflexivity.
Qed.

Lemma X8_witness :
  (forall e,
     CreateChargeSchedule.MarshalJSON
       (CreateChargeSchedule.mk 3 "week" "" "2018-05-15"
          (Some [schedule.Monday]) None "" "customer_id" 100000 "" "" "")
     = (None, Some e) ->
     CreateTransferSchedule.MarshalJSON
       (CreateTransferSchedule.mk 3 "week" "" "2018-05-15"
          (Some [schedule.Monday]) None "" "recipient_id" 100000
          (S754_zero false))
     = (None, Some e))
  /\ (forall bc bx,
        CreateChargeSchedule.MarshalJSON
          (CreateChargeSchedule.mk 3 "week" "" "2018-05-15"
             (Some [schedule.Monday]) None "" "customer_id" 100000 "" "" "")
        = (Some bc, None) ->
        CreateTransferSchedule.MarshalJSON
          (CreateTransferSchedule.mk 3 "week" "" "2018-05-15"
             (Some [schedule.Monday]) None "" "recipient_id" 100000
             (S754_zero false))
        = (Some bx, None) ->
        exists members ac ax,
          bc = gojson.render (gojson.JObject (members ++ [("charge", ac)]))
          /\ bx = gojson.render
                    (gojson.JObject (members ++ [("transfer", ax)]))).
Proof.
  apply X8_both_encoders_agree. repeat split.
Defined.

(** ** The paths of the operations *)

Lemma member_path_injective (a b : string) :
  "/schedules/" ++ a = "/schedules/" ++ b -> a = b.
Proof. cbn [append]. intros H. now injection H. Qed.

(** X9. Creating and listing address the collection path /schedules
    (the two create descriptors are the same, so only the body tells a
    charge schedule from a transfer schedule); retrieving and destroying
    address /schedules/ followed by the id as given, so that different
    ids give different paths, an empty id gives /schedules/ and never the
    collection path, and retrieve and destroy of one id share the path
    and differ in the method. *)
Theorem X9_operation_paths :
  (forall c x, CreateChargeSchedule.Op c = CreateTransferSchedule.Op x)
  /\ (forall (List : Type) (l : ListSchedules.t List),
        ListSchedules.Op l
        = internal.mkOp internal.API "GET" "/schedules" None "application/json")
  /\ (forall a b,
        internal.Path (RetrieveSchedule.Op (RetrieveSchedule.mk a))
        = internal.Path (RetrieveSchedule.Op (RetrieveSchedule.mk b))
        <-> a = b)
  /\ (forall a b,
        internal.Path (RetrieveSchedule.Op (RetrieveSchedule.mk a))
        = internal.Path (DestroySchedule.Op (DestroySchedule.mk b))
        <-> a = b)
  /\ (forall a,
        internal.Path (RetrieveSchedule.Op (RetrieveSchedule.mk a)) <> "/schedules"
        /\ internal.Path (DestroySchedule.Op (DestroySchedule.mk a))
           <> "/schedules")
  /\ (forall a b,
        internal.Method (RetrieveSchedule.Op (RetrieveSchedule.mk a))
        <> internal.Method (DestroySchedule.Op (DestroySchedule.mk b))).
Proof.
  split; [reflexivity |]. split; [reflexivity |].
  split; [| split; [| split]].
  - intros a b. cbn [RetrieveSchedule.Op RetrieveSchedule.ScheduleID
                     internal.Path].
    split; [apply member_path_injective | now intros ->].
  - intros a b. cbn [RetrieveSchedule.Op RetrieveSchedule.ScheduleID
                     DestroySchedule.Op DestroySchedule.ScheduleID
                     internal.Path].
    split; [apply member_path_injective | now intros ->].
  - intros a. split; cbn; discriminate.
  - intros a b. cbn. discriminate.
Qed.

(** ** Nil and empty weekday lists *)

Lemma withSelector_again (r : CreateSchedule.t) (w w' : schedule.Weekdays)
    (d d' : schedule.DaysOfMonth) (s s' : string) :
  withSelector (withSelector r w' d' s') w d s = withSelector r w d s.
Proof. destruct r; reflexivity. Qed.

Lemma withSelector_fields (r : CreateSchedule.t) (w : schedule.Weekdays)
    (d : schedule.DaysOfMonth) (s : string) :
  CreateSchedule.Period (withSelector r w d s) = CreateSchedule.Period r
  /\ CreateSchedule.Weekdays (withSelector r w d s) = w
  /\ CreateSchedule.DaysOfMonth (withSelector r w d s) = d
  /\ CreateSchedule.WeekdayOfMonth (withSelector r w d s) = s.
Proof. destruct r; repeat split. Qed.

(** X10. A nil weekday list and an empty one are encoded alike, for
    every period and whatever the other fields hold: [MarshalJSON]
    returns the same bytes and the same error for both. *)
Theorem X10_nil_and_empty_weekdays_agree
    (r : CreateSchedule.t) (d : schedule.DaysOfMonth) (s : string) :
  CreateSchedule.MarshalJSON (withSelector r None d s)
  = CreateSchedule.MarshalJSON (withSelector r (Some []) d s).
Proof.
  rewrite <- (withSelector_again r None (Some []) d d s s).
  apply written_withSelector.
  destruct (withSelector_fields r (Some []) d s) as (-> & -> & -> & ->).
  unfold selected.
  destruct (String.eqb (CreateSchedule.Period r) "week"),
    (String.eqb (CreateSchedule.Period r) "month"), (notNil d), (nonEmpty s);
    reflexivity.
Qed.
